(** * Notion / Google Calendar synchronisation (src/sync_main.py)

    A shallow embedding of [process_sync_row] and of the [main] loop that
    drives it, together with the store operations it calls:
    [GoogleCalendarAPI.create_event], [update_event], [get_event]
    (src/module/google_cal_api.py) and [BaseNotionDB.update_page]
    (src/module/notion_api.py).

    Effects are modelled by a state, output and exception monad: the state
    holds both stores (calendar events by id, Notion pages by id), the write
    clock used for the stores' last-modified stamps, the id supply of the
    calendar, the current date and the set of store calls that fail
    (transport errors); the output records every store call issued and
    every log line; a Python exception is an [Exc] result. *)

From stdpp Require Import base gmap strings list pretty.
From Stdlib Require Import String Ascii ZArith NArith Lia.

Open Scope Z_scope.

(** ** Data *)

(** A date string as read from a store: well formed ([YYYY-MM-DD], here
    the day number it denotes) or malformed. *)
Inductive raw_date := RDate (d : Z) | RBadDate.

(** A timestamp string (ISO 8601 with offset): the instant it denotes, or
    malformed. *)
Inductive raw_ts := TS (t : N) | RBadTs.

(** A row of [tasks_db.pd_items] (TaskDB._process_raw_to_dict). *)
Record Row := mkRow {
  row_id : string;
  row_title : string;
  row_project : string;             (* "" when the task has no project *)
  row_status : string;
  row_work_date : option Z;         (* 作業日 *)
  row_gcal_event_id : option string;(* GCal_Event_ID *)
  row_last_edited_time : raw_ts
}.

(** A calendar event resource, the fields the engine reads. *)
Record Event := mkEvent {
  ev_summary : option string;       (* "summary" *)
  ev_start : option raw_date;       (* "start" -> "date" *)
  ev_updated : option raw_ts        (* "updated" *)
}.

(** Properties sent by [update_page]. *)
Inductive prop :=
| PEventId (id : string)            (* {"GCal_Event_ID": {"rich_text": ...}} *)
| PWorkDate (d : Z).                (* {"作業日": {"date": {"start": ...}}} *)

(** Store calls. [CList] stands for the content queries of the calendar
    ([list_events], [get_events]), which the engine never issues. *)
Inductive call :=
| CCreate (title : string) (d : Z)
| CUpdateEvent (id title : string) (d : option Z)
| CGet (id : string)
| CList
| CUpdatePage (page : string) (p : prop).

Inductive level := LInfo | LWarning | LError.

Inductive out :=
| OCall (c : call)
| OLog (l : level) (msg : string).

(** Exceptions: a failed store request, a malformed date or timestamp, an
    attribute access on [None]. *)
Inductive exn := ExStore | ExParse | ExAttr.

Record Store := mkStore {
  st_events : gmap string Event;
  st_pages : gmap string Row;
  st_clock : N;                     (* instant of the next store write *)
  st_next_id : N;                   (* id supply of the calendar *)
  st_today : Z;                     (* datetime.date.today() *)
  st_fail : call -> bool            (* requests that fail in transit *)
}.

(** ** The monad *)

Inductive result (A : Type) := Ok (a : A) | Exc (e : exn).
Arguments Ok {A} a.
Arguments Exc {A} e.

Definition M (A : Type) := Store -> Store * list out * result A.

Definition ret {A} (a : A) : M A := fun s => (s, [], Ok a).

Definition bind {A B} (m : M A) (f : A -> M B) : M B := fun s =>
  match m s with
  | (s1, o1, Ok a) => let '(s2, o2, r) := f a s1 in (s2, o1 ++ o2, r)
  | (s1, o1, Exc e) => (s1, o1, Exc e)
  end.

Definition raise {A} (e : exn) : M A := fun s => (s, [], Exc e).

(** [try: m except Exception as e: h e] *)
Definition try_except {A} (m : M A) (h : exn -> M A) : M A := fun s =>
  match m s with
  | (s1, o1, Exc e) => let '(s2, o2, r) := h e s1 in (s2, o1 ++ o2, r)
  | x => x
  end.

Definition log (l : level) (msg : string) : M unit := fun s => (s, [OLog l msg], Ok tt).

Definition emit (c : call) : M unit := fun s => (s, [OCall c], Ok tt).

Definition gets {A} (f : Store -> A) : M A := fun s => (s, [], Ok (f s)).

Definition put (s' : Store) : M unit := fun _ => (s', [], Ok tt).

Notation "'let*' x ':=' m 'in' k" := (bind m (fun x => k))
  (at level 200, x binder, m at level 100, k at level 200).

(** ** Parsing *)

(** [dateutil.parser.isoparse] *)
Definition isoparse (t : raw_ts) : M N :=
  match t with TS n => ret n | RBadTs => raise ExParse end.

(** [datetime.datetime.strptime(s, "%Y-%m-%d").date()] *)
Definition strptime (d : raw_date) : M Z :=
  match d with RDate z => ret z | RBadDate => raise ExParse end.

(** [datetime.datetime.min.replace(tzinfo=utc)]: no instant is earlier. *)
Definition datetime_min : N := 0%N.

(** ** Store operations *)

(** A request goes out; when it fails in transit it raises, with no effect. *)
Definition request (c : call) : M unit :=
  let* _ := emit c in let* fl := gets st_fail in if fl c then raise ExStore else ret tt.

Definition tick : M N := fun s =>
  (mkStore (st_events s) (st_pages s) (N.succ (st_clock s)) (st_next_id s)
           (st_today s) (st_fail s), [], Ok (st_clock s)).

Definition set_events (evs : gmap string Event) : M unit := fun s =>
  (mkStore evs (st_pages s) (st_clock s) (st_next_id s) (st_today s) (st_fail s), [], Ok tt).

Definition set_pages (pgs : gmap string Row) : M unit := fun s =>
  (mkStore (st_events s) pgs (st_clock s) (st_next_id s) (st_today s) (st_fail s), [], Ok tt).

Definition fresh_id : M string := fun s =>
  (mkStore (st_events s) (st_pages s) (st_clock s) (N.succ (st_next_id s))
           (st_today s) (st_fail s), [], Ok (String.append "evt" (pretty (st_next_id s)))).

(** [GoogleCalendarAPI.create_event]: inserts an all-day event and returns
    its id. *)
Definition create_event (title : string) (start_date : Z) : M string :=
  let* _ := request (CCreate title start_date) in
  let* id := fresh_id in
  let* now := tick in
  let* evs := gets st_events in
  let* _ := set_events (<[id := mkEvent (Some title) (Some (RDate start_date)) (Some (TS now))]> evs) in
  let* _ := log LInfo "Created GCal Event" in
  ret id.

(** [GoogleCalendarAPI.update_event]: a patch of the summary and, when a
    date is given, of the start; the calendar stamps [updated]. A patch of
    an unknown id is answered 404 and raises. *)
Definition update_event (event_id title : string) (start_date : option Z) : M unit :=
  let* _ := request (CUpdateEvent event_id title start_date) in
  let* evs := gets st_events in
  match evs !! event_id with
  | None => raise ExStore
  | Some ev =>
      let* now := tick in
      let start := match start_date with Some d => Some (RDate d) | None => ev_start ev end in
      let* _ := set_events (<[event_id := mkEvent (Some title) start (Some (TS now))]> evs) in
      log LInfo "Updated GCal Event"
  end.

(** [self.service.events().get(...).execute()]: raises on a missing id
    (404) and on a failed request. *)
Definition events_get (event_id : string) : M Event :=
  let* _ := request (CGet event_id) in
  let* evs := gets st_events in
  match evs !! event_id with None => raise ExStore | Some ev => ret ev end.

(** [GoogleCalendarAPI.get_event]: [None] on any exception. *)
Definition get_event (event_id : string) : M (option Event) :=
  try_except (let* ev := events_get event_id in ret (Some ev)) (fun _ => ret None).

Definition apply_prop (p : prop) (r : Row) (now : N) : Row :=
  match p with
  | PEventId id => mkRow (row_id r) (row_title r) (row_project r) (row_status r)
                         (row_work_date r) (Some id) (TS now)
  | PWorkDate d => mkRow (row_id r) (row_title r) (row_project r) (row_status r)
                         (Some d) (row_gcal_event_id r) (TS now)
  end.

(** [BaseNotionDB.update_page]: raises when the response is not 200;
    Notion stamps [last_edited_time]. *)
Definition update_page (page_id : string) (p : prop) : M unit :=
  let* _ := request (CUpdatePage page_id p) in
  let* pgs := gets st_pages in
  match pgs !! page_id with
  | None => raise ExStore
  | Some r =>
      let* now := tick in
      let* _ := set_pages (<[page_id := apply_prop p r now]> pgs) in
      log LInfo "Updated Notion Page"
  end.

(** ** The engine: [process_sync_row] *)

Definition ON_HOLD : string := "保留中".
Definition CANCEL_MARK : string := "【中止】".

(** [f"{task_title}【{row.project}】" if row.project else task_title] *)
Definition display_title_of (task_title project : string) : string :=
  if String.eqb project "" then task_title
  else String.append task_title (String.append "【" (String.append project "】")).

(** [is_canceled = (work_date is None) or (status == "保留中")] *)
Definition is_canceled_of (work_date : option Z) (status : string) : bool :=
  match work_date with None => true | Some _ => String.eqb status ON_HOLD end.

Definition target_title_of (is_canceled : bool) (display_title : string) : string :=
  if is_canceled then String.append CANCEL_MARK display_title else display_title.

(** Truthiness of [gcal_event_id]: [None] and [""] are falsy. *)
Definition truthy_id (o : option string) : option string :=
  match o with
  | Some id => if String.eqb id "" then None else Some id
  | None => None
  end.

Definition opt_Z_eqb (a b : option Z) : bool :=
  match a, b with
  | Some x, Some y => Z.eqb x y
  | None, None => true
  | _, _ => false
  end.

(** [work_date.isoformat()] inside [create_event] raises on [None]. *)
Definition create_event_opt (title : string) (start_date : option Z) : M string :=
  match start_date with Some d => create_event title d | None => raise ExAttr end.

Definition process_sync_row (row : Row) : M unit :=
  let task_id := row_id row in
  let task_title := row_title row in
  let work_date := row_work_date row in
  let status := row_status row in
  let gcal_event_id := row_gcal_event_id row in
  let* notion_last_edited := isoparse (row_last_edited_time row) in
  let display_title := display_title_of task_title (row_project row) in
  (* Case A *)
  let is_canceled := is_canceled_of work_date status in
  let target_title := target_title_of is_canceled display_title in
  match truthy_id gcal_event_id with
  | None =>
      (* Case B *)
      if is_canceled then ret tt else
      try_except
        (let* new_event_id := create_event_opt target_title work_date in
         update_page task_id (PEventId new_event_id))
        (fun _ => log LError "Failed to create event")
  | Some event_id =>
      (* Case C *)
      let* gcal_event := get_event event_id in
      match gcal_event with
      | None => log LWarning "Event not found in GCal. Skipping."
      | Some ev =>
          let gcal_title := default "" (ev_summary ev) in
          let* gcal_updated :=
            match ev_updated ev with
            | Some u => isoparse u
            | None => ret datetime_min
            end in
          let* gcal_date :=
            match ev_start ev with
            | Some sd => let* d := strptime sd in ret (Some d)
            | None => ret None
            end in
          if String.eqb gcal_title target_title && opt_Z_eqb gcal_date work_date
          then ret tt
          else
            let* _ := log LInfo "Conflict detected. Syncing..." in
            if is_canceled then
              let* today := gets st_today in
              let update_date := match gcal_date with Some g => g | None => today end in
              if negb (String.prefix CANCEL_MARK gcal_title)
                 || negb (String.eqb gcal_title target_title)
              then update_event event_id target_title (Some update_date)
              else ret tt
            else if (gcal_updated <? notion_last_edited)%N then
              update_event event_id target_title work_date
            else if (notion_last_edited <? gcal_updated)%N then
              match gcal_date with
              | Some g =>
                  if negb (opt_Z_eqb (Some g) work_date)
                  then update_page task_id (PWorkDate g)
                  else
                    let* _ := log LInfo "GCal is newer but date is same." in
                    update_event event_id target_title work_date
              | None =>
                  let* _ := log LInfo "GCal is newer but date is same." in
                  update_event event_id target_title work_date
              end
            else ret tt
      end
  end.

(** ** The pass: the loop of [main] under its [try] *)

Fixpoint sync_rows (rows : list Row) : M unit :=
  match rows with
  | [] => ret tt
  | r :: rs => let* _ := process_sync_row r in sync_rows rs
  end.

Definition sync_pass (rows : list Row) : M unit :=
  try_except
    (match rows with
     | [] => log LInfo "No tasks found in Notion DB."
     | _ => sync_rows rows
     end)
    (fun _ => log LError "Sync execution failed").

(** ** Observations *)

Fixpoint calls_of (o : list out) : list call :=
  match o with
  | [] => []
  | OCall c :: o' => c :: calls_of o'
  | OLog _ _ :: o' => calls_of o'
  end.

(** Calls that change a store. *)
Definition is_write (c : call) : bool :=
  match c with
  | CCreate _ _ | CUpdateEvent _ _ _ | CUpdatePage _ _ => true
  | CGet _ | CList => false
  end.

Definition writes_of (o : list out) : list call := filter (fun c => is_write c = true) (calls_of o).

(** The instant an event's [updated] field denotes, [None] when it is
    malformed (the engine raises then). *)
Definition ev_updated_instant (ev : Event) : option N :=
  match ev_updated ev with
  | Some (TS t) => Some t
  | Some RBadTs => None
  | None => Some datetime_min
  end.

(** The date an event's start denotes ([None] inside when it has none),
    [None] outside when it is malformed. *)
Definition ev_date (ev : Event) : option (option Z) :=
  match ev_start ev with
  | Some (RDate d) => Some (Some d)
  | Some RBadDate => None
  | None => Some None
  end.

Definition st_of {A} (x : Store * list out * result A) : Store := fst (fst x).
Definition out_of {A} (x : Store * list out * result A) : list out := snd (fst x).
Definition res_of {A} (x : Store * list out * result A) : result A := snd x.

(** A second pass sees the row as the task store now holds it. *)
Definition resync (r : Row) (s : Store) : Store * list out * result unit :=
  match st_pages s !! row_id r with
  | Some r' => process_sync_row r' s
  | None => (s, [], Ok tt)
  end.

(** ** [TaskDB._date_string_to_date]

    [datetime.datetime.strptime(date_string.split("T")[0], "%Y-%m-%d").date()].
    For the format ["%Y-%m-%d"], [_strptime] compiles the pattern
    [(?P<Y>\d\d\d\d)-(?P<m>1[0-2]|0[1-9]|[1-9])-(?P<d>3[0-1]|[1-2]\d|0[1-9]|[1-9]| [1-9])],
    runs [re.match] (a backtracking match anchored at the start), raises
    [ValueError] when nothing matches or when characters remain after the
    match, and then builds [datetime.date(year, month, day)], which raises
    [ValueError] for year 0 or a day past the end of the month. The string
    is read byte by byte: [\d] is an ASCII digit here, where Python also
    accepts other Unicode decimal digits. *)

Record pydate := mkDate { dt_year : Z; dt_month : Z; dt_day : Z }.

(** Python exceptions. [NotionError] is the [Exception("Notion API Error: ...")]
    of [_get_raw_data]; [RequestException] covers the errors of [requests]. *)
Inductive pyexn :=
  KeyError | TypeError | IndexError | AttributeError | ValueError | LookupError
| NotionError | RequestException.

Inductive pyres (A : Type) := POk (a : A) | PErr (e : pyexn).
Arguments POk {A} a.
Arguments PErr {A} e.

Definition pbind {A B} (m : pyres A) (f : A -> pyres B) : pyres B :=
  match m with POk a => f a | PErr e => PErr e end.

Notation "'let?' x ':=' m 'in' k" := (pbind m (fun x => k))
  (at level 200, x binder, m at level 100, k at level 200).

Definition is_digit (c : ascii) : bool :=
  (48 <=? nat_of_ascii c)%nat && (nat_of_ascii c <=? 57)%nat.

Definition digit_val (c : ascii) : Z := Z.of_nat (nat_of_ascii c) - 48.

Definition in_range (c : ascii) (lo hi : ascii) : bool :=
  (nat_of_ascii lo <=? nat_of_ascii c)%nat && (nat_of_ascii c <=? nat_of_ascii hi)%nat.

(** One alternative of a group: the value it captures and the rest. *)
Definition alt := list ascii -> option (Z * list ascii).

(** [1[0-2]], [0[1-9]], [[1-9]] *)
Definition month_alts : list alt :=
  [ (fun s => match s with
              | c1 :: c2 :: r => if (c1 =? "1")%char && in_range c2 "0" "2"
                                 then Some (10 + digit_val c2, r) else None
              | _ => None end);
    (fun s => match s with
              | c1 :: c2 :: r => if (c1 =? "0")%char && in_range c2 "1" "9"
                                 then Some (digit_val c2, r) else None
              | _ => None end);
    (fun s => match s with
              | c1 :: r => if in_range c1 "1" "9" then Some (digit_val c1, r) else None
              | _ => None end) ].

(** [3[0-1]], [[1-2]\d], [0[1-9]], [[1-9]], [ [1-9]] *)
Definition day_alts : list alt :=
  [ (fun s => match s with
              | c1 :: c2 :: r => if (c1 =? "3")%char && in_range c2 "0" "1"
                                 then Some (30 + digit_val c2, r) else None
              | _ => None end);
    (fun s => match s with
              | c1 :: c2 :: r => if in_range c1 "1" "2" && is_digit c2
                                 then Some (10 * digit_val c1 + digit_val c2, r) else None
              | _ => None end);
    (fun s => match s with
              | c1 :: c2 :: r => if (c1 =? "0")%char && in_range c2 "1" "9"
                                 then Some (digit_val c2, r) else None
              | _ => None end);
    (fun s => match s with
              | c1 :: r => if in_range c1 "1" "9" then Some (digit_val c1, r) else None
              | _ => None end);
    (fun s => match s with
              | c1 :: c2 :: r => if (c1 =? " ")%char && in_range c2 "1" "9"
                                 then Some (digit_val c2, r) else None
              | _ => None end) ].

(** The first alternative, in order, for which [k] succeeds on what it
    leaves: the backtracking of [re] over an alternation. *)
Fixpoint first_alt {B} (alts : list alt) (s : list ascii)
    (k : Z -> list ascii -> option B) : option B :=
  match alts with
  | [] => None
  | a :: rest =>
      match (match a s with Some (v, r) => k v r | None => None end) with
      | Some b => Some b
      | None => first_alt rest s k
      end
  end.

(** [format_regex.match(data_string)]: the captured year, month and day
    and the unmatched rest. *)
Definition match_ymd (s : list ascii) : option (Z * Z * Z * list ascii) :=
  match s with
  | y1 :: y2 :: y3 :: y4 :: c :: r =>
      if is_digit y1 && is_digit y2 && is_digit y3 && is_digit y4 && (c =? "-")%char then
        let y := 1000 * digit_val y1 + 100 * digit_val y2 + 10 * digit_val y3 + digit_val y4 in
        first_alt month_alts r (fun m r1 =>
          match r1 with
          | c' :: r2 => if (c' =? "-")%char
                        then first_alt day_alts r2 (fun d r3 => Some (y, m, d, r3))
                        else None
          | [] => None
          end)
      else None
  | _ => None
  end.

Definition is_leap (y : Z) : bool :=
  (y mod 4 =? 0) && (negb (y mod 100 =? 0) || (y mod 400 =? 0)).

Definition days_in_month (y m : Z) : Z :=
  if (m =? 2) then (if is_leap y then 29 else 28)
  else if (m =? 4) || (m =? 6) || (m =? 9) || (m =? 11) then 30 else 31.

(** [datetime.date(year, month, day)] accepts the date. *)
Definition valid_date (y m d : Z) : bool :=
  (1 <=? y) && (y <=? 9999) && (1 <=? m) && (m <=? 12) && (1 <=? d) && (d <=? days_in_month y m).

Definition strptime_date (s : list ascii) : pyres pydate :=
  match match_ymd s with
  | None => PErr ValueError
  | Some (y, m, d, rest) =>
      match rest with
      | _ :: _ => PErr ValueError
      | [] => if valid_date y m d then POk (mkDate y m d) else PErr ValueError
      end
  end.

(** [s.split("T")[0]]: everything before the first ["T"]. *)
Fixpoint before_T (s : list ascii) : list ascii :=
  match s with
  | [] => []
  | c :: r => if (c =? "T")%char then [] else c :: before_T r
  end.

Definition date_string_to_date (date_string : string) : pyres pydate :=
  strptime_date (before_T (list_ascii_of_string date_string)).

(** [date.isoformat()]: ["%04d-%02d-%02d"]. *)
Definition digit_char (n : Z) : ascii := ascii_of_nat (Z.to_nat (48 + n)).

Definition isoformat (dt : pydate) : string :=
  let y := dt_year dt in let m := dt_month dt in let d := dt_day dt in
  string_of_list_ascii
    [digit_char (y / 1000); digit_char (y / 100 mod 10); digit_char (y / 10 mod 10);
     digit_char (y mod 10); "-"%char; digit_char (m / 10); digit_char (m mod 10);
     "-"%char; digit_char (d / 10); digit_char (d mod 10)].

(* proofs *)

(** ** JSON values as [requests]' [res.json()] returns them *)

(** [None], [bool], numbers (integers: no float occurs in the fields read
    here), [str], [list] and [dict]. An object keeps its
    members in order; [json.loads] keeps the last value of a repeated key. *)
#[warnings="-register-all"] Inductive json :=
| JNull
| JBool (b : bool)
| JNum (n : Z)
| JStr (s : string)
| JArr (l : list json)
| JObj (kv : list (string * json)).

Definition dict_lookup (kv : list (string * json)) (k : string) : option json :=
  fold_left (fun acc '(k', v) => if String.eqb k' k then Some v else acc) kv None.

Definition dict_keys (kv : list (string * json)) : list string :=
  remove_dups (map fst kv).

(** [v[k]] for a string key. *)
Definition getitem (v : json) (k : string) : pyres json :=
  match v with
  | JObj kv => match dict_lookup kv k with Some x => POk x | None => PErr KeyError end
  | _ => PErr TypeError
  end.

(** [v[i]] for an integer index [i >= 0]. A [str] gives its [i]-th
    character (here: byte) as a string; a [dict] has no integer keys. *)
Definition getindex (v : json) (i : nat) : pyres json :=
  match v with
  | JArr l => match nth_error l i with Some x => POk x | None => PErr IndexError end
  | JStr s => match String.get i s with
              | Some c => POk (JStr (String c EmptyString))
              | None => PErr IndexError
              end
  | JObj _ => PErr KeyError
  | _ => PErr TypeError
  end.

(** [v.get(k, default)] *)
Definition pyget (v : json) (k : string) (default : json) : pyres json :=
  match v with
  | JObj kv => POk (match dict_lookup kv k with Some x => x | None => default end)
  | _ => PErr AttributeError
  end.

(** [len(v)]; a [str] is counted in bytes, which only matters for its
    comparison with 0 here. *)
Definition pylen (v : json) : pyres nat :=
  match v with
  | JArr l => POk (List.length l)
  | JStr s => POk (String.length s)
  | JObj kv => POk (List.length (dict_keys kv))
  | _ => PErr TypeError
  end.

(** Truthiness. *)
Definition truthy (v : json) : bool :=
  match v with
  | JNull => false
  | JBool b => b
  | JNum n => negb (n =? 0)
  | JStr s => negb (String.eqb s "")
  | JArr l => negb (List.length l =? 0)%nat
  | JObj kv => negb (List.length kv =? 0)%nat
  end.

Definition is_none (v : json) : bool := match v with JNull => true | _ => false end.

(** ** Computations that log: the log lines and a Python result *)

Definition Py (A : Type) := (list (level * string) * pyres A)%type.

Definition pret {A} (a : A) : Py A := ([], POk a).
Definition plift {A} (r : pyres A) : Py A := ([], r).
Definition plog (l : level) (msg : string) : Py unit := ([(l, msg)], POk tt).
Definition praise {A} (l : level) (msg : string) (e : pyexn) : Py A := ([(l, msg)], PErr e).

Definition wbind {A B} (m : Py A) (f : A -> Py B) : Py B :=
  match m with
  | (o, POk a) => let (o2, r) := f a in (o ++ o2, r)
  | (o, PErr e) => (o, PErr e)
  end.

Notation "'let!' x ':=' m 'in' k" := (wbind m (fun x => k))
  (at level 200, x binder, m at level 100, k at level 200).

(** ** [TaskDB._parse_date_property] *)

(** [self._date_string_to_date(v)]: [v.split] exists only on [str]. *)
Definition date_of_json (v : json) : pyres pydate :=
  match v with JStr s => date_string_to_date s | _ => PErr AttributeError end.

Inductive date_ret := DOne (d : option pydate) | DPair (s e : option pydate).

Definition parse_date_property (date_prop : json) (field : string) (return_range : bool)
    : pyres date_ret :=
  match date_prop with
  | JNull => POk (if return_range then DPair None None else DOne None)
  | _ =>
    let? sv := pyget date_prop "start" JNull in
    let? start_date := (if is_none sv then POk None
                        else let? s := getitem date_prop "start" in
                             let? d := date_of_json s in POk (Some d)) in
    if return_range then
      let? ev := pyget date_prop "end" JNull in
      let? end_date := (if is_none ev then POk None
                        else let? e := getitem date_prop "end" in
                             let? d := date_of_json e in POk (Some d)) in
      POk (DPair start_date end_date)
    else if String.eqb field "start" then POk (DOne start_date)
    else if String.eqb field "end" then
      let? ev := pyget date_prop "end" JNull in
      if is_none ev then POk (DOne None)
      else let? e := getitem date_prop "end" in
           let? d := date_of_json e in POk (DOne (Some d))
    else POk (DOne None)
  end.

(** ** DataFrames and [BaseNotionDB.get_item_from_pd] *)

(** A frame: its column labels and its rows; a cell a row lacks is NaN. *)
Record frame := mkFrame { df_columns : list string; df_rows : list (list (string * json)) }.

(** [pd.DataFrame()]: no columns, no rows. *)
Definition empty_frame : frame := mkFrame [] [].

(** [pd.json_normalize(records)] of records with no nested objects: one
    column per key, in order of first appearance. *)
Definition normalize (recs : list (list (string * json))) : frame :=
  mkFrame (remove_dups (List.concat (map (map fst) recs))) recs.

(** A cell of [df[in_cul] == in_value] with a string [in_value]: NaN and
    non-strings compare unequal. *)
Definition cell_matches (c : option json) (in_value : json) : bool :=
  match c, in_value with Some (JStr s), JStr v => String.eqb s v | _, _ => false end.

Definition get_item_from_pd (df : frame) (in_cul : string) (in_value : json)
    (out_cul : string) : Py (option json) :=
  if negb (bool_decide (in_cul ∈ df_columns df)) || negb (bool_decide (out_cul ∈ df_columns df))
  then praise LError "Error: Columns missing" ValueError
  else match List.find (fun row => cell_matches (dict_lookup row in_cul) in_value) (df_rows df) with
       | Some row => pret (dict_lookup row out_cul)
       | None => praise LError "Error: Value not found" LookupError
       end.

Definition is_obj (v : json) : bool := match v with JObj _ => true | _ => false end.

(** [v[k1][k2]...[kn]] *)
Definition path (v : json) (ks : list string) : pyres json :=
  fold_left (fun acc k => let? x := acc in getitem x k) ks (POk v).

(** The loop shared by both [_process_raw_to_dict]: each raw item is
    converted under [try]; on an exception the handler logs
    [raw_item.get('id', 'N/A')], which itself raises [AttributeError] when
    the item is not a [dict], and otherwise goes on with the next item. *)
Fixpoint convert_all {A} (f : json -> Py A) (err_msg : string) (raws : list json) : Py (list A) :=
  match raws with
  | [] => pret []
  | r :: rs =>
    let! x := (match f r with
               | (o, POk a) => (o, POk [a])
               | (o, PErr _) =>
                   if is_obj r then (o ++ [(LError, err_msg)], POk [])
                   else (o, PErr AttributeError)
               end) in
    let! xs := convert_all f err_msg rs in
    pret (x ++ xs)
  end.

(** ** [RelatedDB._process_raw_to_dict] *)

Definition PJ_NAME : string := "プロジェクト名".
Definition SPRINT_NAME : string := "スプリント名".

Definition related_item (elem_name : string) (raw_item : json) : pyres (list (string * json)) :=
  let? ta := path raw_item ["properties"; elem_name; "title"] in
  let? t0 := getindex ta 0 in
  let? title := getitem t0 "plain_text" in
  let? id := getitem raw_item "id" in
  let? status := path raw_item ["properties"; "ステータス"; "status"; "id"] in
  POk [("title", title); ("id", id); ("status", status)].

Definition related_process (raw_items : list json) : Py (list (list (string * json))) :=
  match raw_items with
  | [] => pret []
  | first :: _ =>
    let! props := plift (getitem first "properties") in
    let! prop_keys := plift (match props with JObj kv => POk (dict_keys kv) | _ => PErr AttributeError end) in
    if bool_decide (PJ_NAME ∈ prop_keys) then
      convert_all (fun r => plift (related_item PJ_NAME r)) "関連DBデータ変換エラー" raw_items
    else if bool_decide (SPRINT_NAME ∈ prop_keys) then
      convert_all (fun r => plift (related_item SPRINT_NAME r)) "関連DBデータ変換エラー" raw_items
    else
      let! _ := plog LWarning "関連DBのタイトルプロパティが見つかりませんでした。" in
      pret []
  end.

(** ** [TaskDB._process_raw_to_dict] *)

(** A converted task. [project] and [sprint] are a cell of a frame when
    they are resolved by [get_item_from_pd] ([None] for NaN); Python's
    [None] is [Some JNull]. *)
Record task := mkTask {
  t_title : json;
  t_status : json;
  t_project : option json;
  t_start : option pydate;
  t_end : option pydate;
  t_work_date : option pydate;
  t_sprint : option json;
  t_tag : json;
  t_id : json;
  t_gcal_event_id : json;
  t_last_edited_time : json
}.

Definition OTHER_TAG : string := "その他".

Definition convert_task (projects sprints : frame) (raw_task : json) : Py task :=
  let! title_arr := plift (path raw_task ["properties"; "タスク名"; "title"]) in
  let! t0 := plift (getindex title_arr 0) in
  let! task_name := plift (getitem t0 "plain_text") in
  let! pj_relation := plift (path raw_task ["properties"; "プロジェクト"; "relation"]) in
  let! n := plift (pylen pj_relation) in
  let! pj_name := (if (0 <? n)%nat then
                     let! p0 := plift (getindex pj_relation 0) in
                     let! pj_id := plift (getitem p0 "id") in
                     get_item_from_pd projects "id" pj_id "title"
                   else pret (Some (JStr ""))) in
  let! sprint_relation := plift (path raw_task ["properties"; "スプリント"; "relation"]) in
  let! m := plift (pylen sprint_relation) in
  let! sprint_name := (if (0 <? m)%nat then
                         let! s0 := plift (getindex sprint_relation 0) in
                         let! sprint_id := plift (getitem s0 "id") in
                         get_item_from_pd sprints "id" sprint_id "title"
                       else let! _ := plog LWarning "Sprint is missing." in pret (Some JNull)) in
  let! due := plift (path raw_task ["properties"; "期限"; "date"]) in
  let! se := plift (parse_date_property due "start" true) in
  (* [start_date, end_date = ...]: with [return_range=True] always a pair *)
  let! dates := plift (match se with DPair s e => POk (s, e) | DOne _ => PErr TypeError end) in
  let! status := plift (path raw_task ["properties"; "ステータス"; "status"; "name"]) in
  let! tag_select := plift (path raw_task ["properties"; "タグ"; "multi_select"]) in
  let! k := plift (pylen tag_select) in
  let! tag := (if (0 <? k)%nat then
                 let! x := plift (getindex tag_select 0) in plift (getitem x "name")
               else pret (JStr OTHER_TAG)) in
  let! _ := (if (k =? 0)%nat then plog LWarning "Tag is missing. Defaulting to 'その他'."
             else pret tt) in
  let! task_id := plift (getitem raw_task "id") in
  let! last_edited := plift (getitem raw_task "last_edited_time") in
  let! wd_prop := plift (path raw_task ["properties"; "作業日"; "date"]) in
  let! wd := plift (parse_date_property wd_prop "start" false) in
  (* with [return_range=False] always a single value *)
  let! work_date := plift (match wd with DOne d => POk d | DPair _ _ => PErr TypeError end) in
  let! props := plift (getitem raw_task "properties") in
  let! g := plift (pyget props "GCal_Event_ID" (JObj [])) in
  let! gcal_id_prop := plift (pyget g "rich_text" (JArr [])) in
  let! gcal_event_id := (if truthy gcal_id_prop then
                           let! x := plift (getindex gcal_id_prop 0) in plift (getitem x "plain_text")
                         else pret JNull) in
  pret (mkTask task_name status pj_name (fst dates) (snd dates) work_date sprint_name
               tag task_id gcal_event_id last_edited).

Definition task_process (projects sprints : frame) (raw_tasks : list json) : Py (list task) :=
  convert_all (convert_task projects sprints) "タスク変換エラー" raw_tasks.

(** ** [BaseNotionDB._get_raw_data] *)

(** A reply of the query endpoint: the status code and the body, [None]
    when the body is not JSON ([res.json()] raises). *)
Record response := mkResp { r_status : Z; r_body : option json }.

(** [requests.post(task_url, headers=..., json=payload)] for one database:
    [None] when the request raises. *)
Definition server := json -> option response.

Definition query_payload (start_cursor : json) : json :=
  if truthy start_cursor then JObj [("page_size", JNum 100); ("start_cursor", start_cursor)]
  else JObj [("page_size", JNum 100)].

(** [all_results.extend(results)]: a list by its items, a [str] by its
    characters (here: bytes), a [dict] by its keys. *)
Definition pyiter (v : json) : pyres (list json) :=
  match v with
  | JArr l => POk l
  | JStr s => POk (map (fun c => JStr (String c EmptyString)) (list_ascii_of_string s))
  | JObj kv => POk (map JStr (dict_keys kv))
  | _ => PErr TypeError
  end.

Definition json_body (res : response) : pyres json :=
  match r_body res with Some d => POk d | None => PErr ValueError end.

(** The [while has_more] loop; [fuel] bounds the number of requests, [None]
    is a run that has not ended within it. *)
Fixpoint fetch_pages (post : server) (fuel : nat) (start_cursor : json)
    (all_results : list json) : option (Py (list json)) :=
  match fuel with
  | O => None
  | S fuel' =>
    match post (query_payload start_cursor) with
    | None => Some (plift (PErr RequestException))
    | Some res =>
      if negb (r_status res =? 200) then Some (praise LError "Error getting DB" NotionError)
      else
        match (let? data := json_body res in
               let? results := pyget data "results" (JArr []) in
               let? items := pyiter results in
               let? has_more := pyget data "has_more" (JBool false) in
               let? next_cursor := pyget data "next_cursor" JNull in
               POk (items, has_more, next_cursor)) with
        | PErr e => Some (plift (PErr e))
        | POk (items, has_more, next_cursor) =>
            if truthy has_more then fetch_pages post fuel' next_cursor (all_results ++ items)
            else Some (let! _ := plog LInfo "Fetched items" in pret (all_results ++ items))
        end
    end
  end.

Definition get_raw_data (post : server) (fuel : nat) : option (Py (list json)) :=
  fetch_pages post fuel JNull [].

(** ** [BaseNotionDB._load_and_process_data] *)

(** The items [pd_items] is built from: none when fetching or processing
    raised ([pd_items] stays [pd.DataFrame()]). *)
Definition load_items {A} (post : server) (fuel : nat) (process : list json -> Py (list A))
    : option (list (level * string) * list A) :=
  match get_raw_data post fuel with
  | None => None
  | Some (o, PErr _) => Some (o ++ [(LError, "Failed to load or process data")], [])
  | Some (o, POk raw_items) =>
      match process raw_items with
      | (o2, POk items) => Some (o ++ o2, items)
      | (o2, PErr _) => Some (o ++ o2 ++ [(LError, "Failed to load or process data")], [])
      end
  end.

(** ** [main] *)

Definition log_all (o : list (level * string)) : M unit :=
  fun s => (s, map (fun '(l, msg) => OLog l msg) o, Ok tt).

Definition START_MSG : string := "#=== Start Synchronization ===#".
Definition FINISH_MSG : string := "#=== Finish Synchronization ===#".

Section Main.

(** A row of [tasks_db.pd_items.itertuples()] as the engine reads it. *)
Variable row_of_task : task -> Row.

(** [calendar_id_set]: [G_CALENDAR_ID] is truthy; [key_file_exists]:
    [os.path.exists(G_SERVICE_ACCOUNT_FILE)]; [creds_ok]: the constructor
    of [GoogleCalendarAPI] loads the key and builds the client without
    raising; its exception is represented by [ExStore], which the handler
    does not inspect. The three query endpoints answer [post_pj], [post_sp]
    and [post_task]. *)
Definition sync_main (calendar_id_set key_file_exists creds_ok : bool)
    (post_pj post_sp post_task : server) (fuel : nat) : option (M unit) :=
  let start := log LInfo START_MSG in
  let finish := log LInfo FINISH_MSG in
  if negb calendar_id_set then
    Some (let* _ := start in log LError "Error: GOOGLE_CALENDAR_ID is not set in .env")
  else if negb key_file_exists then
    Some (let* _ := start in log LError "Error: Service account key file not found")
  else if negb creds_ok then
    Some (let* _ := start in
          let* _ := try_except (raise ExStore) (fun _ => log LError "Sync execution failed") in
          finish)
  else
    match load_items post_pj fuel related_process with
    | None => None
    | Some (o1, pj_items) =>
      match load_items post_sp fuel related_process with
      | None => None
      | Some (o2, sp_items) =>
        match load_items post_task fuel (task_process (normalize pj_items) (normalize sp_items)) with
        | None => None
        | Some (o3, tasks) =>
            Some (let* _ := start in
                  let* _ := log_all (o1 ++ o2 ++ o3) in
                  let* _ := sync_pass (map row_of_task tasks) in
                  finish)
        end
      end
    end.

End Main.

(** ** [BaseNotionDB.append_children] *)






(** ** Observations of the Notion layer *)

Definition ok_items {A} (f : json -> Py A) (raws : list json) : list A :=
  flat_map (fun r => match snd (f r) with POk a => [a] | PErr _ => [] end) raws.

Definition related_shape (x : list (string * json)) : Prop :=
  exists t i st, x = [("title", t); ("id", i); ("status", st)].

(** A 200 reply whose body is an object listing [items] under ["results"],
    with [has_more] of truthiness [more] and [next_cursor] [nc]. *)
Definition page_reply (res : option response) (items : list json) (more : bool) (nc : json) : Prop :=
  exists kv, res = Some (mkResp 200 (Some (JObj kv))) /\
    dict_lookup kv "results" = Some (JArr items) /\
    truthy (default (JBool false) (dict_lookup kv "has_more")) = more /\
    default JNull (dict_lookup kv "next_cursor") = nc.

(** Starting from cursor [cur], the server answers the pages [pages] each
    with [has_more] truthy, the last one pointing to cursor [last]. *)
Fixpoint more_pages (post : server) (cur : json) (pages : list (list json)) (last : json) : Prop :=
  match pages with
  | [] => last = cur
  | items :: rest => exists nc, page_reply (post (query_payload cur)) items true nc /\
                               more_pages post nc rest last
  end.

(** ** Evaluation lemmas *)

Ltac unfold_m :=
  cbv [get_event try_except events_get update_event update_page create_event
       create_event_opt fresh_id tick set_events set_pages bind request emit
       gets ret raise log isoparse strptime out_of st_of res_of] in *.

Lemma calls_of_app o1 o2 : calls_of (o1 ++ o2) = calls_of o1 ++ calls_of o2.
Proof. induction o1 as [|[] o1 IH]; simpl; rewrite ?IH; auto. Qed.

Lemma writes_of_app o1 o2 : writes_of (o1 ++ o2) = writes_of o1 ++ writes_of o2.
Proof. unfold writes_of. rewrite calls_of_app, filter_app. reflexivity. Qed.

Lemma bind_ok {A B} (m : M A) (f : A -> M B) s s1 o1 a :
  m s = (s1, o1, Ok a) ->
  bind m f s = let '(s2, o2, r) := f a s1 in (s2, o1 ++ o2, r).
Proof. intros H. unfold bind. rewrite H. reflexivity. Qed.

Lemma bind_exc {A B} (m : M A) (f : A -> M B) s s1 o1 e :
  m s = (s1, o1, Exc e) -> bind m f s = (s1, o1, Exc e).
Proof. intros H. unfold bind. rewrite H. reflexivity. Qed.

Lemma get_event_found s eid ev :
  st_fail s (CGet eid) = false -> st_events s !! eid = Some ev ->
  get_event eid s = (s, [OCall (CGet eid)], Ok (Some ev)).
Proof. intros Hf He. unfold_m. rewrite Hf, He. reflexivity. Qed.

Lemma get_event_missing s eid :
  st_fail s (CGet eid) = true \/ st_events s !! eid = None ->
  get_event eid s = (s, [OCall (CGet eid)], Ok None).
Proof. intros [Hf|He]; unfold_m; [rewrite Hf; reflexivity|].
  destruct (st_fail s (CGet eid)); [reflexivity|]. rewrite He. reflexivity. Qed.

Lemma update_event_calls eid t d s :
  calls_of (out_of (update_event eid t d s)) = [CUpdateEvent eid t d].
Proof. unfold_m. destruct (st_fail s _); [reflexivity|].
  destruct (st_events s !! eid); reflexivity. Qed.

Lemma update_page_calls pid p s :
  calls_of (out_of (update_page pid p s)) = [CUpdatePage pid p].
Proof. unfold_m. destruct (st_fail s _); [reflexivity|].
  destruct (st_pages s !! pid); reflexivity. Qed.

Lemma prefix_append_self (a b : string) : String.prefix a (String.append a b) = true.
Proof.
  induction a as [|c a IH]; simpl.
  - destruct b; reflexivity.
  - destruct (Ascii.ascii_dec c c) as [_|n]; [exact IH|contradiction].
Qed.

Arguments display_title_of : simpl never.
Arguments target_title_of : simpl never.
Arguments String.eqb : simpl never.
Arguments String.prefix : simpl never.

Ltac destr_event ev :=
  let sm := fresh "sm" in let sd := fresh "sd" in let su := fresh "su" in
  destruct ev as [sm sd su];
  destruct sd as [[?|]|]; destruct su as [[?|]|];
  cbv [ev_updated_instant ev_date ev_summary ev_start ev_updated] in *;
  simplify_eq.

Ltac norm_bool :=
  repeat match goal with
  | H : String.eqb _ _ = true |- _ => apply String.eqb_eq in H
  | H : String.eqb _ _ = false |- _ => apply String.eqb_neq in H
  | H : Z.eqb _ _ = true |- _ => apply Z.eqb_eq in H
  | H : Z.eqb _ _ = false |- _ => apply Z.eqb_neq in H
  | H : N.ltb _ _ = true |- _ => apply N.ltb_lt in H
  | H : N.ltb _ _ = false |- _ => apply N.ltb_ge in H
  | H : (_ && _)%bool = true |- _ => apply andb_prop in H; destruct H
  | H : (_ && _)%bool = false |- _ => apply andb_false_iff in H; destruct H
  | H : (_ || _)%bool = true |- _ => apply orb_true_iff in H; destruct H
  | H : (_ || _)%bool = false |- _ => apply orb_false_iff in H; destruct H
  | H : negb _ = true |- _ => apply negb_true_iff in H
  | H : negb _ = false |- _ => apply negb_false_iff in H
  end.

Ltac crush :=
  repeat (first [ progress simplify_eq/= | progress norm_bool | case_match ]);
  try congruence; try lia; try tauto.

(** ** Invariants of computations

    [preserves R Q m]: from any store, [m] ends in a store related to the
    first by [R] and issues only calls satisfying [Q]. *)

Definition preserves {A} (R : Store -> Store -> Prop) (Q : call -> Prop) (m : M A) : Prop :=
  forall s, R s (st_of (m s)) /\ Forall Q (calls_of (out_of (m s))).

Section Preserves.
Variable R : Store -> Store -> Prop.
Variable Q : call -> Prop.
Hypothesis R_refl : forall s, R s s.
Hypothesis R_trans : forall s1 s2 s3, R s1 s2 -> R s2 s3 -> R s1 s3.

Lemma pres_ret {A} (a : A) : preserves R Q (ret a).
Proof. intros s. split; [apply R_refl|constructor]. Qed.

Lemma pres_raise {A} e : preserves R Q (@raise A e).
Proof. intros s. split; [apply R_refl|constructor]. Qed.

Lemma pres_log l msg : preserves R Q (log l msg).
Proof. intros s. split; [apply R_refl|constructor]. Qed.

Lemma pres_gets {A} (f : Store -> A) : preserves R Q (gets f).
Proof. intros s. split; [apply R_refl|constructor]. Qed.

Lemma pres_bind {A B} (m : M A) (f : A -> M B) :
  preserves R Q m -> (forall a, preserves R Q (f a)) -> preserves R Q (bind m f).
Proof.
  intros Hm Hf s. unfold bind, st_of, out_of in *.
  destruct (Hm s) as [HR HQ]. destruct (m s) as [[s1 o1] [a|e]]; simpl in *; auto.
  destruct (Hf a s1) as [HR' HQ']. destruct (f a s1) as [[s2 o2] r2]; simpl in *.
  split; [eauto|]. rewrite calls_of_app. apply Forall_app; auto.
Qed.

Lemma pres_try {A} (m : M A) (h : exn -> M A) :
  preserves R Q m -> (forall e, preserves R Q (h e)) -> preserves R Q (try_except m h).
Proof.
  intros Hm Hh s. unfold try_except, st_of, out_of in *.
  destruct (Hm s) as [HR HQ]. destruct (m s) as [[s1 o1] [a|e]]; simpl in *; auto.
  destruct (Hh e s1) as [HR' HQ']. destruct (h e s1) as [[s2 o2] r2]; simpl in *.
  split; [eauto|]. rewrite calls_of_app. apply Forall_app; auto.
Qed.

Lemma pres_isoparse t : preserves R Q (isoparse t).
Proof. destruct t; [apply pres_ret|apply pres_raise]. Qed.

Lemma pres_strptime d : preserves R Q (strptime d).
Proof. destruct d; [apply pres_ret|apply pres_raise]. Qed.

Lemma pres_get_event eid : Q (CGet eid) -> preserves R Q (get_event eid).
Proof.
  intros HQ s.
  destruct (st_fail s (CGet eid)) eqn:Hf;
    [rewrite (get_event_missing s eid (or_introl Hf))
    |destruct (st_events s !! eid) as [ev|] eqn:He;
     [rewrite (get_event_found s eid ev Hf He)
     |rewrite (get_event_missing s eid (or_intror He))]];
    unfold st_of, out_of; simpl; split; auto.
Qed.
End Preserves.

Ltac pres_step :=
  first
  [ apply pres_ret; assumption | apply pres_raise; assumption
  | apply pres_log; assumption | apply pres_gets; assumption
  | apply pres_isoparse; assumption | apply pres_strptime; assumption
  | apply pres_bind; try assumption; [|intros ?]
  | apply pres_try; try assumption; [|intros ?]
  | progress cbv zeta
  | case_match ].

(** ** Outcomes of one row without transport errors *)

Definition upd_event_store (s : Store) (eid : string) (ev : Event) : Store :=
  mkStore (<[eid := ev]> (st_events s)) (st_pages s) (N.succ (st_clock s))
          (st_next_id s) (st_today s) (st_fail s).

Definition upd_page_store (s : Store) (pid : string) (r : Row) : Store :=
  mkStore (st_events s) (<[pid := r]> (st_pages s)) (N.succ (st_clock s))
          (st_next_id s) (st_today s) (st_fail s).

Definition no_faults (s : Store) : Prop := forall c, st_fail s c = false.

Lemma found_outcome (r : Row) (s : Store) (eid : string) (ev : Event)
    (tn te : N) (gd : option Z) :
  no_faults s ->
  truthy_id (row_gcal_event_id r) = Some eid ->
  row_last_edited_time r = TS tn ->
  st_events s !! eid = Some ev ->
  st_pages s !! row_id r = Some r ->
  ev_updated_instant ev = Some te ->
  ev_date ev = Some gd ->
  (st_of (process_sync_row r s) = s /\ writes_of (out_of (process_sync_row r s)) = [])
  \/
  (~ (default "" (ev_summary ev) =
        target_title_of (is_canceled_of (row_work_date r) (row_status r))
                        (display_title_of (row_title r) (row_project r)) /\
      gd = row_work_date r) /\
   exists u,
     writes_of (out_of (process_sync_row r s)) =
       [CUpdateEvent eid (target_title_of (is_canceled_of (row_work_date r) (row_status r))
                           (display_title_of (row_title r) (row_project r))) (Some u)] /\
     st_of (process_sync_row r s) =
       upd_event_store s eid
         (mkEvent (Some (target_title_of (is_canceled_of (row_work_date r) (row_status r))
                           (display_title_of (row_title r) (row_project r))))
                  (Some (RDate u)) (Some (TS (st_clock s)))) /\
     (is_canceled_of (row_work_date r) (row_status r) = false -> Some u = row_work_date r) /\
     (is_canceled_of (row_work_date r) (row_status r) = true ->
        default "" (ev_summary ev) <>
        target_title_of (is_canceled_of (row_work_date r) (row_status r))
                        (display_title_of (row_title r) (row_project r))))
  \/
  (is_canceled_of (row_work_date r) (row_status r) = false /\ (tn < te)%N /\
   exists g, gd = Some g /\ Some g <> row_work_date r /\
     writes_of (out_of (process_sync_row r s)) = [CUpdatePage (row_id r) (PWorkDate g)] /\
     st_of (process_sync_row r s) =
       upd_page_store s (row_id r) (apply_prop (PWorkDate g) r (st_clock s))).
Proof.
  intros NF. destruct r as [rid title proj status wd gid last]; simpl.
  intros Hid -> He Hp Hu Hd.
  assert (Hf : st_fail s (CGet eid) = false) by apply NF.
  destr_event ev; unfold process_sync_row; simpl; rewrite Hid;
    unfold_m; simpl; rewrite Hf, He; simpl;
    repeat (first [ progress simplify_eq/= | progress norm_bool | rewrite NF
                  | rewrite He | rewrite Hp | case_match ]);
    try congruence;
    try first
    [ left; split; reflexivity
    | right; left; split;
        [ intros [? ?]; simplify_eq; congruence
        | eexists; split; [reflexivity|split; [reflexivity|split; [intros; congruence|]]];
          intros Hc Heq; first
          [ congruence
          | rewrite Heq in *; unfold target_title_of in *;
            rewrite prefix_append_self in *; discriminate ] ]
    | right; right; split; [congruence|split; [lia|]];
        eexists; split; [reflexivity|split; [congruence|split; reflexivity]] ].
Qed.

Lemma process_bad_ts (r : Row) (s : Store) :
  row_last_edited_time r = RBadTs -> process_sync_row r s = (s, [], Exc ExParse).
Proof. intros H. unfold process_sync_row. rewrite H. reflexivity. Qed.

Lemma process_new_canceled (r : Row) (s : Store) (tn : N) :
  truthy_id (row_gcal_event_id r) = None ->
  is_canceled_of (row_work_date r) (row_status r) = true ->
  row_last_edited_time r = TS tn ->
  process_sync_row r s = (s, [], Ok tt).
Proof.
  intros Hid Hc Hl. unfold process_sync_row. rewrite Hl. cbv [isoparse bind ret].
  rewrite Hid, Hc. reflexivity.
Qed.

Lemma create_outcome (r : Row) (s : Store) (tn : N) :
  no_faults s ->
  truthy_id (row_gcal_event_id r) = None ->
  is_canceled_of (row_work_date r) (row_status r) = false ->
  row_last_edited_time r = TS tn ->
  st_pages s !! row_id r = Some r ->
  exists d, row_work_date r = Some d /\
    let title := display_title_of (row_title r) (row_project r) in
    let new_id := String.append "evt" (pretty (st_next_id s)) in
    writes_of (out_of (process_sync_row r s)) =
      [CCreate title d; CUpdatePage (row_id r) (PEventId new_id)] /\
    st_of (process_sync_row r s) =
      mkStore (<[new_id := mkEvent (Some title) (Some (RDate d)) (Some (TS (st_clock s)))]>
                 (st_events s))
              (<[row_id r := apply_prop (PEventId new_id) r (N.succ (st_clock s))]> (st_pages s))
              (N.succ (N.succ (st_clock s))) (N.succ (st_next_id s)) (st_today s) (st_fail s).
Proof.
  intros NF. destruct r as [rid title proj status wd gid last]; simpl.
  intros Hid Hc -> Hp. destruct wd as [d|]; [|discriminate]. exists d. split; [reflexivity|].
  simpl in Hc. unfold process_sync_row; simpl; rewrite Hid, Hc.
  unfold_m; simpl. do 4 (rewrite ?NF, ?Hp; simpl).
  unfold target_title_of. split; reflexivity.
Qed.

Lemma found_parse_fail (r : Row) (s : Store) (eid : string) (ev : Event) (tn : N) :
  no_faults s ->
  truthy_id (row_gcal_event_id r) = Some eid ->
  row_last_edited_time r = TS tn ->
  st_events s !! eid = Some ev ->
  ev_updated_instant ev = None \/ ev_date ev = None ->
  st_of (process_sync_row r s) = s /\ writes_of (out_of (process_sync_row r s)) = [].
Proof.
  intros NF. destruct r as [rid title proj status wd gid last]; simpl.
  intros Hid -> He Hbad.
  assert (Hf : st_fail s (CGet eid) = false) by apply NF.
  destruct ev as [sm sd su]; destruct sd as [[?|]|]; destruct su as [[?|]|];
    cbv [ev_updated_instant ev_date ev_summary ev_start ev_updated] in *;
    destruct Hbad as [Hbad|Hbad]; try discriminate;
    unfold process_sync_row; simpl; rewrite Hid;
    unfold_m; simpl; rewrite Hf, He; simpl; split; reflexivity.
Qed.

Lemma process_not_found (r : Row) (s : Store) (eid : string) :
  truthy_id (row_gcal_event_id r) = Some eid ->
  get_event eid s = (s, [OCall (CGet eid)], Ok None) ->
  process_sync_row r s =
    match row_last_edited_time r with
    | TS _ => (s, [OCall (CGet eid); OLog LWarning "Event not found in GCal. Skipping."], Ok tt)
    | RBadTs => (s, [], Exc ExParse)
    end.
Proof.
  destruct r as [rid title proj status wd gid last]; simpl. intros Hid Hg.
  unfold process_sync_row; simpl. rewrite Hid.
  destruct last; [|reflexivity].
  unfold isoparse, ret, bind at 1. cbv beta iota.
  unfold bind at 1. rewrite Hg. reflexivity.
Qed.

(** The second and third runs of the engine on a row, each on the row as
    the task store holds it after the previous run. *)
Definition second_run (r : Row) (s : Store) : Store * list out * result unit :=
  resync r (st_of (process_sync_row r s)).

Definition third_run (r : Row) (s : Store) : Store * list out * result unit :=
  resync r (st_of (second_run r s)).

(** Two further runs settle the row: no write-back of a date means the
    second run writes nothing; a write-back of date [g] means the second run
    at most pushes [g] to the event and the third writes nothing. *)
Definition settles (r : Row) (s : Store) : Prop :=
  ((forall g, ~ In (CUpdatePage (row_id r) (PWorkDate g))
                   (writes_of (out_of (process_sync_row r s)))) ->
   writes_of (out_of (second_run r s)) = []) /\
  (forall g, In (CUpdatePage (row_id r) (PWorkDate g))
                (writes_of (out_of (process_sync_row r s))) ->
   (writes_of (out_of (second_run r s)) = [] \/
    exists eid t, writes_of (out_of (second_run r s)) = [CUpdateEvent eid t (Some g)]) /\
   writes_of (out_of (third_run r s)) = []).

Lemma resync_at (r r' : Row) (s : Store) :
  st_pages s !! row_id r = Some r' -> resync r s = process_sync_row r' s.
Proof. intros Hp. unfold resync. rewrite Hp. reflexivity. Qed.

(** Once the mirrored event carries the target title and, for a task that
    is not canceled, the task's work date, the engine leaves it alone. *)
Lemma quiet_after_sync (r : Row) (s : Store) (eid : string) (u : Z) (n tn : N) :
  no_faults s ->
  truthy_id (row_gcal_event_id r) = Some eid ->
  row_last_edited_time r = TS tn ->
  st_events s !! eid =
    Some (mkEvent (Some (target_title_of (is_canceled_of (row_work_date r) (row_status r))
                           (display_title_of (row_title r) (row_project r))))
                  (Some (RDate u)) (Some (TS n))) ->
  st_pages s !! row_id r = Some r ->
  (is_canceled_of (row_work_date r) (row_status r) = false -> Some u = row_work_date r) ->
  st_of (process_sync_row r s) = s /\ writes_of (out_of (process_sync_row r s)) = [].
Proof.
  intros NF Hid Hl He Hp Hu.
  destruct (found_outcome r s eid _ tn n (Some u) NF Hid Hl He Hp eq_refl eq_refl)
    as [Hq|[[Hne [u' [_ [_ [_ Hct]]]]]|[Hc [_ [g [Hg [Hgw _]]]]]]].
  - exact Hq.
  - exfalso. destruct (is_canceled_of (row_work_date r) (row_status r)) eqn:Hc.
    + apply (Hct eq_refl). reflexivity.
    + apply Hne. split; [reflexivity|]. apply Hu. reflexivity.
  - exfalso. injection Hg as <-. apply Hgw, Hu, Hc.
Qed.

Lemma unchanged_settles (r : Row) (s : Store) :
  st_pages s !! row_id r = Some r ->
  st_of (process_sync_row r s) = s ->
  writes_of (out_of (process_sync_row r s)) = [] ->
  settles r s.
Proof.
  intros Hp Hs Hw. unfold settles, third_run, second_run.
  rewrite Hs, (resync_at r r s Hp), Hw.
  split; [reflexivity|]. intros g [].
Qed.

Lemma no_faults_upd_event s eid ev : no_faults s -> no_faults (upd_event_store s eid ev).
Proof. intros NF c. apply NF. Qed.

Lemma no_faults_upd_page s pid r : no_faults s -> no_faults (upd_page_store s pid r).
Proof. intros NF c. apply NF. Qed.

Lemma truthy_fresh (n : N) :
  truthy_id (Some (String.append "evt" (pretty n))) = Some (String.append "evt" (pretty n)).
Proof.
  unfold truthy_id. rewrite (proj2 (String.eqb_neq _ _)); [reflexivity|discriminate].
Qed.

Lemma settles_all (r : Row) (s : Store) :
  no_faults s -> st_pages s !! row_id r = Some r -> settles r s.
Proof.
  intros NF Hp.
  destruct (row_last_edited_time r) as [tn|] eqn:Hl;
    [|apply unchanged_settles; [exact Hp| |]; rewrite (process_bad_ts r s Hl); reflexivity].
  destruct (truthy_id (row_gcal_event_id r)) as [eid|] eqn:Hid.
  - destruct (st_events s !! eid) as [ev|] eqn:He.
    + destruct (ev_updated_instant ev) as [te|] eqn:Hu;
        [destruct (ev_date ev) as [gd|] eqn:Hd|].
      * destruct (found_outcome r s eid ev tn te gd NF Hid Hl He Hp Hu Hd)
          as [[H1 H2]|[[Hne [u [Hw [Hs [Hcf Hct]]]]]|[Hc [Hlt [g [Hg [Hgw [Hw Hs]]]]]]]].
        -- apply unchanged_settles; assumption.
        -- unfold settles, second_run. rewrite Hs.
           rewrite (resync_at r r); [|exact Hp].
           destruct (quiet_after_sync r _ eid u (st_clock s) tn
                       (no_faults_upd_event s eid _ NF) Hid Hl
                       (lookup_insert_eq _ _ _) Hp Hcf) as [_ Q2].
           split; [intros _; exact Q2|].
           intros g Hin. rewrite Hw in Hin. destruct Hin as [Hin|[]]. discriminate.
        -- subst gd.
           set (r1 := apply_prop (PWorkDate g) r (st_clock s)) in *.
           set (s1 := upd_page_store s (row_id r) r1) in *.
           assert (Hp1 : st_pages s1 !! row_id r = Some r1) by apply lookup_insert_eq.
           assert (Hc1 : is_canceled_of (row_work_date r1) (row_status r1) = false).
           { unfold is_canceled_of in *. simpl.
             destruct (row_work_date r); [exact Hc|discriminate]. }
           assert (Hid1 : truthy_id (row_gcal_event_id r1) = Some eid) by exact Hid.
           assert (Hl1 : row_last_edited_time r1 = TS (st_clock s)) by reflexivity.
           assert (NF1 : no_faults s1) by (apply no_faults_upd_page, NF).
           assert (He1 : st_events s1 !! eid = Some ev) by exact He.
           unfold settles, third_run, second_run. rewrite Hs.
           rewrite (resync_at r r1 s1 Hp1).
           split.
           { intros Hn. exfalso. apply (Hn g). rewrite Hw. left. reflexivity. }
           intros g' Hin. rewrite Hw in Hin. destruct Hin as [Hin|[]].
           injection Hin as <-.
           destruct (found_outcome r1 s1 eid ev (st_clock s) te (Some g)
                       NF1 Hid1 Hl1 He1 Hp1 Hu Hd)
             as [[Q1 Q2]|[[_ [u [Hw1 [Hs1 [Hcf1 _]]]]]|[_ [_ [g2 [Hg2 [Hgw2 _]]]]]]].
           ++ split; [left; exact Q2|].
              rewrite Q1, (resync_at r r1 s1 Hp1). exact Q2.
           ++ assert (Hug : u = g) by (specialize (Hcf1 Hc1); injection Hcf1; auto).
              subst u.
              split; [right; eexists _, _; exact Hw1|].
              rewrite Hs1, (resync_at r r1); [|exact Hp1].
              destruct (quiet_after_sync r1 _ eid g (st_clock s1) (st_clock s)
                          (no_faults_upd_event s1 eid _ NF1) Hid1 Hl1
                          (lookup_insert_eq _ _ _) Hp1 Hcf1) as [_ Q2].
              exact Q2.
           ++ exfalso. apply Hgw2. rewrite <- Hg2. reflexivity.
      * destruct (found_parse_fail r s eid ev tn NF Hid Hl He (or_intror Hd)) as [H1 H2].
        apply unchanged_settles; assumption.
      * destruct (found_parse_fail r s eid ev tn NF Hid Hl He (or_introl Hu)) as [H1 H2].
        apply unchanged_settles; assumption.
    + pose proof (process_not_found r s eid Hid (get_event_missing s eid (or_intror He))) as Hn.
      rewrite Hl in Hn.
      apply unchanged_settles; [exact Hp| |]; rewrite Hn; reflexivity.
  - destruct (is_canceled_of (row_work_date r) (row_status r)) eqn:Hc.
    + apply unchanged_settles; [exact Hp| |];
        rewrite (process_new_canceled r s tn Hid Hc Hl); reflexivity.
    + destruct (create_outcome r s tn NF Hid Hc Hl Hp) as [d [Hwd H]].
      cbv zeta in H. destruct H as [Hw Hs].
      set (nid := String.append "evt" (pretty (st_next_id s))) in *.
      set (r1 := apply_prop (PEventId nid) r (N.succ (st_clock s))) in *.
      set (s1 := st_of (process_sync_row r s)) in *.
      assert (NF1 : no_faults s1) by (intros c; rewrite Hs; apply NF).
      assert (Hp1 : st_pages s1 !! row_id r = Some r1)
        by (rewrite Hs; apply lookup_insert_eq).
      assert (He1 : st_events s1 !! nid =
        Some (mkEvent (Some (target_title_of (is_canceled_of (row_work_date r1) (row_status r1))
                               (display_title_of (row_title r1) (row_project r1))))
                      (Some (RDate d)) (Some (TS (st_clock s))))).
      { rewrite Hs. simpl. rewrite Hc, lookup_insert_eq. reflexivity. }
      unfold settles, second_run. fold s1.
      rewrite (resync_at r r1 s1 Hp1).
      destruct (quiet_after_sync r1 s1 nid d (st_clock s) (N.succ (st_clock s))
                  NF1 (truthy_fresh _) eq_refl He1 Hp1 (fun _ => eq_sym Hwd)) as [_ Q2].
      split; [intros _; exact Q2|].
      intros g Hin. rewrite Hw in Hin. destruct Hin as [Hin|[Hin|[]]]; discriminate.
Qed.

(** ** Claims *)

(** C7. A canceled task (no work date, or on hold) without a mirrored
    event id makes no store call at all: the stores are untouched and
    nothing is issued. *)
Theorem no_mirror_for_canceled (r : Row) (s : Store) :
  is_canceled_of (row_work_date r) (row_status r) = true ->
  row_gcal_event_id r = None ->
  st_of (process_sync_row r s) = s /\ calls_of (out_of (process_sync_row r s)) = [].
Proof.
  destruct r as [rid title proj status wd gid last]; simpl. intros Hc ->.
  unfold process_sync_row; simpl. rewrite Hc.
  destruct last; unfold_m; simpl; auto.
Qed.

(** C8. When the mirrored event id resolves to not-found, the engine
    changes neither store and issues no write; with a well-formed row it
    issues only the fetch and logs a warning. *)
Theorem deleted_mirror_stable (r : Row) (s : Store) (eid : string) :
  truthy_id (row_gcal_event_id r) = Some eid ->
  st_events s !! eid = None ->
  st_of (process_sync_row r s) = s /\
  writes_of (out_of (process_sync_row r s)) = [] /\
  (forall tn, row_last_edited_time r = TS tn ->
     out_of (process_sync_row r s) =
       [OCall (CGet eid); OLog LWarning "Event not found in GCal. Skipping."] /\
     res_of (process_sync_row r s) = Ok tt).
Proof.
  intros Hid He.
  rewrite (process_not_found r s eid Hid (get_event_missing s eid (or_intror He))).
  destruct (row_last_edited_time r); repeat split; intros; simplify_eq; reflexivity.
Qed.

(** C10. [get_event] turns every exception into [None]: a failed fetch of
    the mirrored event yields the same calls, logs and result as a fetch of
    an event that was deleted, and, like it, leaves both stores unchanged. *)
Theorem fetch_error_as_not_found (r : Row) (s : Store) (eid : string) :
  truthy_id (row_gcal_event_id r) = Some eid ->
  st_fail s (CGet eid) = true ->
  let s_deleted := mkStore (delete eid (st_events s)) (st_pages s) (st_clock s)
                           (st_next_id s) (st_today s) (fun _ => false) in
  out_of (process_sync_row r s) = out_of (process_sync_row r s_deleted) /\
  res_of (process_sync_row r s) = res_of (process_sync_row r s_deleted) /\
  st_of (process_sync_row r s) = s /\
  st_of (process_sync_row r s_deleted) = s_deleted.
Proof.
  intros Hid Hf s_deleted.
  rewrite (process_not_found r s eid Hid (get_event_missing s eid (or_introl Hf))).
  assert (Hd : st_events s_deleted !! eid = None) by (simpl; apply lookup_delete_eq).
  rewrite (process_not_found r s_deleted eid Hid (get_event_missing s_deleted eid (or_intror Hd))).
  destruct (row_last_edited_time r); repeat split.
Qed.

(** C2. For a canceled task whose mirrored event is found: when the
    event's title is not exactly the target title
    ([target_title_of true d = "【中止】" ++ d] for the display title [d]),
    the engine issues exactly one call after the fetch, an event update to
    the target title with the event's own date (today's date only when the
    event has none); when the title already matches, it issues nothing
    after the fetch. No task-side write happens. *)
Theorem canceled_title_only_update (r : Row) (s : Store) (eid : string) (ev : Event)
    (tn te : N) (gd : option Z) :
  is_canceled_of (row_work_date r) (row_status r) = true ->
  truthy_id (row_gcal_event_id r) = Some eid ->
  row_last_edited_time r = TS tn ->
  st_fail s (CGet eid) = false ->
  st_events s !! eid = Some ev ->
  ev_updated_instant ev = Some te ->
  ev_date ev = Some gd ->
  (default "" (ev_summary ev) <>
     target_title_of true (display_title_of (row_title r) (row_project r)) ->
   calls_of (out_of (process_sync_row r s)) =
     [CGet eid; CUpdateEvent eid
                  (target_title_of true (display_title_of (row_title r) (row_project r)))
                  (Some (match gd with Some g => g | None => st_today s end))]) /\
  (default "" (ev_summary ev) =
     target_title_of true (display_title_of (row_title r) (row_project r)) ->
   calls_of (out_of (process_sync_row r s)) = [CGet eid]).
Proof.
  destruct r as [rid title proj status wd gid last]; simpl.
  intros Hc Hid -> Hf He Hu Hd.
  destr_event ev; unfold process_sync_row; simpl; rewrite Hid, Hc;
    unfold_m; simpl; rewrite Hf, He; simpl;
    (split; intros Ht;
     [ apply String.eqb_neq in Ht; rewrite Ht, orb_true_r; simpl; crush
     | rewrite Ht, String.eqb_refl; unfold target_title_of;
       rewrite prefix_append_self; simpl; crush ]).
Qed.

Definition cex_row : Row := mkRow "t1" "A" "" "進行中" (Some 1) (Some "e") (TS 5).
Definition cex_event : Event := mkEvent (Some "B") None (Some (TS 50)).
Definition cex_store : Store :=
  mkStore {[ "e" := cex_event ]} {[ "t1" := cex_row ]} 100 0 7 (fun _ => false).

(** C1 (as stated, refuted). The event is strictly newer and has no date,
    which differs from the task's work date 1; the engine does not write to
    the task but updates the event from the task. *)
Lemma last_writer_wins_cex :
  (5 < 50)%N /\ ev_updated_instant cex_event = Some 50%N /\
  ev_date cex_event = Some None /\ row_work_date cex_row = Some 1 /\
  calls_of (out_of (process_sync_row cex_row cex_store)) =
    [CGet "e"; CUpdateEvent "e" "A" (Some 1)].
Proof. vm_compute. repeat split; lia. Qed.

(** C1 (amended). For a non-canceled task with work date [d] whose
    mirrored event is found and well formed but does not match the target
    state: when the task is strictly newer, the only call after the fetch
    is an event update to the target title and [d]; when the event is
    strictly newer and has a date [g] different from [d], the only call
    after the fetch writes [g] to the task's work date; when the event is
    strictly newer and has no date, the only call after the fetch is an
    event update to the target title and [d]. *)
Theorem last_writer_wins (r : Row) (s : Store) (eid : string) (ev : Event)
    (d : Z) (tn te : N) (gd : option Z) :
  row_work_date r = Some d ->
  is_canceled_of (row_work_date r) (row_status r) = false ->
  truthy_id (row_gcal_event_id r) = Some eid ->
  row_last_edited_time r = TS tn ->
  st_fail s (CGet eid) = false ->
  st_events s !! eid = Some ev ->
  ev_updated_instant ev = Some te ->
  ev_date ev = Some gd ->
  ~ (default "" (ev_summary ev) = display_title_of (row_title r) (row_project r) /\
     gd = Some d) ->
  ((te < tn)%N ->
   calls_of (out_of (process_sync_row r s)) =
     [CGet eid; CUpdateEvent eid (display_title_of (row_title r) (row_project r)) (Some d)]) /\
  ((tn < te)%N -> forall g, gd = Some g -> g <> d ->
   calls_of (out_of (process_sync_row r s)) = [CGet eid; CUpdatePage (row_id r) (PWorkDate g)]) /\
  ((tn < te)%N -> gd = None ->
   calls_of (out_of (process_sync_row r s)) =
     [CGet eid; CUpdateEvent eid (display_title_of (row_title r) (row_project r)) (Some d)]).
Proof.
  destruct r as [rid title proj status wd gid last]; simpl.
  intros -> Hc Hid -> Hf He Hu Hd Hne. simpl in Hc.
  destr_event ev; unfold process_sync_row; simpl; rewrite Hid, Hc;
    unfold_m; simpl; rewrite Hf, He; simpl; unfold target_title_of;
    (split; [intros Hlt | split; [intros Hlt g Hg Hgd | intros Hlt Hg]]); crush.
Qed.

(** C3. A non-canceled task with work date [d] and no mirrored event id:
    the engine creates one event with the target title (the display title)
    and [d]; when the creation succeeds the calendar holds that event under
    the returned id, the only other call writes that id to the task, and
    when that write succeeds the task store holds the id. *)
Theorem create_on_first_sync (r : Row) (s : Store) (d : Z) (tn : N) :
  row_work_date r = Some d ->
  is_canceled_of (row_work_date r) (row_status r) = false ->
  row_gcal_event_id r = None ->
  row_last_edited_time r = TS tn ->
  let title := display_title_of (row_title r) (row_project r) in
  let new_id := String.append "evt" (pretty (st_next_id s)) in
  st_fail s (CCreate title d) = false ->
  calls_of (out_of (process_sync_row r s)) =
    [CCreate title d; CUpdatePage (row_id r) (PEventId new_id)] /\
  st_events (st_of (process_sync_row r s)) !! new_id =
    Some (mkEvent (Some title) (Some (RDate d)) (Some (TS (st_clock s)))) /\
  (st_fail s (CUpdatePage (row_id r) (PEventId new_id)) = false ->
   is_Some (st_pages s !! row_id r) ->
   row_gcal_event_id <$> (st_pages (st_of (process_sync_row r s)) !! row_id r) =
     Some (Some new_id)).
Proof.
  intros Hwd Hc Hgid Hlast title new_id Hf.
  destruct r as [rid title0 proj status wd gid last];
    cbn [row_id row_title row_project row_status row_work_date row_gcal_event_id
         row_last_edited_time] in *; subst wd gid last. simpl in Hc.
  unfold process_sync_row; simpl; rewrite Hc.
  unfold_m; simpl. unfold target_title_of. fold title. rewrite Hf. simpl.
  fold new_id.
  destruct (st_fail s (CUpdatePage rid (PEventId new_id))) eqn:Hp; simpl.
  - repeat split; [rewrite lookup_insert_eq; reflexivity|discriminate].
  - destruct (st_pages s !! rid) as [r0|] eqn:Hr; simpl.
    + repeat split; [rewrite lookup_insert_eq; reflexivity|].
      intros _ _. rewrite lookup_insert_eq. reflexivity.
    + repeat split; [rewrite lookup_insert_eq; reflexivity|].
      intros _ [? Hx]. discriminate.
Qed.

Definition cex6_row : Row := mkRow "t1" "A" "" "進行中" (Some 1) None (TS 5).
Definition cex6_store : Store :=
  mkStore ∅ {[ "t1" := cex6_row ]} 100 0 7
          (fun c => match c with CUpdatePage _ _ => true | _ => false end).

(** C6 (as stated, refuted). The write-back of the new id fails: the task
    stays unmirrored, but the calendar now holds the created event, a
    partial state. *)
Lemma atomic_first_sync_cex :
  st_events cex6_store = ∅ /\
  st_events (st_of (process_sync_row cex6_row cex6_store)) !! "evt0" =
    Some (mkEvent (Some "A") (Some (RDate 1)) (Some (TS 100))) /\
  row_gcal_event_id <$> (st_pages (st_of (process_sync_row cex6_row cex6_store)) !! "t1") =
    Some None.
Proof. vm_compute. repeat split. Qed.

(** C6 (amended). For a non-canceled task with work date [d] and no
    mirrored event id: when the creation request fails, the failure is
    logged and neither store changes; when the creation succeeds but the
    write-back of the id fails, the failure is logged and the task store is
    unchanged (the id stays absent) while the created event stays in the
    calendar. *)
Theorem atomic_first_sync (r : Row) (s : Store) (d : Z) (tn : N) :
  row_work_date r = Some d ->
  is_canceled_of (row_work_date r) (row_status r) = false ->
  row_gcal_event_id r = None ->
  row_last_edited_time r = TS tn ->
  let title := display_title_of (row_title r) (row_project r) in
  let new_id := String.append "evt" (pretty (st_next_id s)) in
  (st_fail s (CCreate title d) = true ->
   process_sync_row r s =
     (s, [OCall (CCreate title d); OLog LError "Failed to create event"], Ok tt)) /\
  (st_fail s (CCreate title d) = false ->
   st_fail s (CUpdatePage (row_id r) (PEventId new_id)) = true \/
     st_pages s !! row_id r = None ->
   st_pages (st_of (process_sync_row r s)) = st_pages s /\
   st_events (st_of (process_sync_row r s)) =
     <[new_id := mkEvent (Some title) (Some (RDate d)) (Some (TS (st_clock s)))]>
       (st_events s) /\
   out_of (process_sync_row r s) =
     [OCall (CCreate title d); OLog LInfo "Created GCal Event";
      OCall (CUpdatePage (row_id r) (PEventId new_id));
      OLog LError "Failed to create event"] /\
   res_of (process_sync_row r s) = Ok tt).
Proof.
  intros Hwd Hc Hgid Hlast title new_id.
  destruct r as [rid title0 proj status wd gid last];
    cbn [row_id row_title row_project row_status row_work_date row_gcal_event_id
         row_last_edited_time] in *; subst wd gid last. simpl in Hc.
  unfold process_sync_row; simpl; rewrite Hc.
  unfold_m; simpl. unfold target_title_of. fold title.
  split; intros Hf; rewrite Hf; simpl; [destruct s; reflexivity|].
  fold new_id. intros [Hp|Hp].
  - rewrite Hp. simpl. repeat split.
  - destruct (st_fail s (CUpdatePage rid (PEventId new_id))); simpl;
      [|rewrite Hp]; repeat split.
Qed.

(** The calls a row with a mirrored event id [eid] may issue: the fetch
    and the update of that event, and the write of a work date to the
    task. *)
Definition mirror_call (eid rid : string) (c : call) : Prop :=
  c = CGet eid \/ (exists t d, c = CUpdateEvent eid t d) \/
  (exists g, c = CUpdatePage rid (PWorkDate g)).

(** Every stored task keeps its mirrored event id. *)
Definition ids_kept (s s' : Store) : Prop :=
  forall k, row_gcal_event_id <$> (st_pages s' !! k) = row_gcal_event_id <$> (st_pages s !! k).

Lemma pres_update_event_ids eid rid t d :
  preserves ids_kept (mirror_call eid rid) (update_event eid t d).
Proof.
  intros s. split.
  - intros k. unfold_m. destruct (st_fail s _); [reflexivity|].
    destruct (st_events s !! eid); reflexivity.
  - rewrite update_event_calls. constructor; [|constructor]. right; left; eauto.
Qed.

Lemma pres_update_page_ids eid rid g :
  preserves ids_kept (mirror_call eid rid) (update_page rid (PWorkDate g)).
Proof.
  intros s. split.
  - intros k. unfold_m. destruct (st_fail s _); [reflexivity|].
    destruct (st_pages s !! rid) as [r0|] eqn:Hr; [|reflexivity]. simpl.
    destruct (decide (k = rid)) as [->|Hk].
    + rewrite lookup_insert_eq, Hr. reflexivity.
    + rewrite lookup_insert_ne by congruence. reflexivity.
  - rewrite update_page_calls. constructor; [|constructor]. right; right; eauto.
Qed.

(** C9. The engine writes the mirrored event id only when the task has
    none (the creation branch); for a task whose id is set, every stored
    task keeps its mirrored event id, and the only calendar read is the
    fetch by that id (never a query by content). *)
Theorem mirror_id_write_once (r : Row) (s : Store) :
  (forall p i, In (CUpdatePage p (PEventId i)) (calls_of (out_of (process_sync_row r s))) ->
     truthy_id (row_gcal_event_id r) = None) /\
  (forall eid, truthy_id (row_gcal_event_id r) = Some eid ->
     ids_kept s (st_of (process_sync_row r s)) /\
     Forall (mirror_call eid (row_id r)) (calls_of (out_of (process_sync_row r s)))).
Proof.
  assert (Hset : forall eid, truthy_id (row_gcal_event_id r) = Some eid ->
            preserves ids_kept (mirror_call eid (row_id r)) (process_sync_row r)).
  { intros eid Hid. unfold process_sync_row.
    assert (Hrefl : forall s, ids_kept s s) by (intros ? ?; reflexivity).
    assert (Htrans : forall s1 s2 s3, ids_kept s1 s2 -> ids_kept s2 s3 -> ids_kept s1 s3)
      by (intros ??? H1 H2 k; rewrite H2; apply H1).
    apply pres_bind; [assumption|apply pres_isoparse; assumption|intros n].
    cbv zeta. rewrite Hid.
    repeat first
      [ apply pres_get_event; try assumption; left; reflexivity
      | apply pres_update_event_ids
      | apply pres_update_page_ids
      | pres_step ]. }
  split.
  - intros p i Hin. destruct (truthy_id (row_gcal_event_id r)) as [eid|] eqn:Hid; [|reflexivity].
    destruct (Hset eid eq_refl s) as [_ Hall]. rewrite List.Forall_forall in Hall.
    destruct (Hall _ Hin) as [?|[[? [? ?]]|[? ?]]]; discriminate.
  - intros eid Hid. exact (Hset eid Hid s).
Qed.

Definition c4_row1 : Row := mkRow "t1" "A" "" "進行中" (Some 1) (Some "e") (TS 5).
Definition c4_row2 : Row := mkRow "t2" "B" "" "未着手" (Some 3) None (TS 5).
Definition c4_store : Store :=
  mkStore {[ "e" := mkEvent (Some "A0") (Some (RDate 1)) (Some (TS 2)) ]}
          {[ "t1" := c4_row1; "t2" := c4_row2 ]} 100 0 7
          (fun c => match c with CUpdateEvent _ _ _ => true | _ => false end).

(** C4 (defect). The event update for the first task fails in transit:
    the exception leaves [process_sync_row], the pass ends in [main]'s
    outer handler, and the second task, which alone would have been
    mirrored, is never processed. *)
Lemma pass_aborts_on_row_failure :
  res_of (process_sync_row c4_row1 c4_store) = Exc ExStore /\
  calls_of (out_of (process_sync_row c4_row2 c4_store)) =
    [CCreate "B" 3; CUpdatePage "t2" (PEventId "evt0")] /\
  out_of (sync_pass [c4_row1; c4_row2] c4_store) =
    [OCall (CGet "e"); OLog LInfo "Conflict detected. Syncing...";
     OCall (CUpdateEvent "e" "A" (Some 1)); OLog LError "Sync execution failed"].
Proof. vm_compute. repeat split. Qed.

(** ** C5: idempotence *)

Definition cex5_row : Row := mkRow "t1" "A" "" "進行中" (Some 1) (Some "e") (TS 5).
Definition cex5_event : Event := mkEvent (Some "B") (Some (RDate 2)) (Some (TS 50)).
Definition cex5_store : Store :=
  mkStore {[ "e" := cex5_event ]} {[ "t1" := cex5_row ]} 100 0 7 (fun _ => false).

(** C5 (as stated, refuted). The event was edited after the task, both
    title and date: the first run writes the event's date 2 into the task;
    the second run, with nothing changed in between, now finds the task
    newer and pushes the task's title to the event. *)
Lemma idempotence_cex :
  writes_of (out_of (process_sync_row cex5_row cex5_store)) =
    [CUpdatePage "t1" (PWorkDate 2)] /\
  writes_of (out_of (second_run cex5_row cex5_store)) =
    [CUpdateEvent "e" "A" (Some 2)].
Proof. vm_compute. split; reflexivity. Qed.

(** C5 (amended). With no store faults and the row as the task store holds
    it, a run that does not write a date back to the task is followed by a
    second run with no writes. A run that writes date [g] back to the task
    is followed by a second run that writes nothing or a single event
    update carrying [g], and then by a third run with no writes. *)
Theorem resync_settles (r : Row) (s : Store) :
  no_faults s ->
  st_pages s !! row_id r = Some r ->
  ((forall g, ~ In (CUpdatePage (row_id r) (PWorkDate g))
                   (writes_of (out_of (process_sync_row r s)))) ->
   writes_of (out_of (second_run r s)) = []) /\
  (forall g, In (CUpdatePage (row_id r) (PWorkDate g))
                (writes_of (out_of (process_sync_row r s))) ->
   (writes_of (out_of (second_run r s)) = [] \/
    exists eid t, writes_of (out_of (second_run r s)) = [CUpdateEvent eid t (Some g)]) /\
   writes_of (out_of (third_run r s)) = []).
Proof. intros NF Hp. exact (settles_all r s NF Hp). Qed.

Lemma resync_settles_witness :
  no_faults cex5_store /\ st_pages cex5_store !! row_id cex5_row = Some cex5_row /\
  writes_of (out_of (third_run cex5_row cex5_store)) = [].
Proof.
  assert (NF : no_faults cex5_store) by (intros c; reflexivity).
  assert (Hp : st_pages cex5_store !! row_id cex5_row = Some cex5_row) by reflexivity.
  split; [exact NF|]. split; [exact Hp|].
  destruct (resync_settles cex5_row cex5_store NF Hp) as [_ H].
  apply (H 2). vm_compute. left. reflexivity.
Defined.

(** ** Dates, the Notion layer and [main]: lemmas *)

Lemma digit_char_nat n : 0 <= n <= 9 -> Z.of_nat (nat_of_ascii (digit_char n)) = 48 + n.
Proof.
  intros Hn. unfold digit_char. rewrite Ascii.nat_ascii_embedding.
  - rewrite Z2Nat.id; lia.
  - apply Nat2Z.inj_lt. rewrite Z2Nat.id by lia. simpl. lia.
Qed.

Lemma digit_char_ok n : 0 <= n <= 9 ->
  is_digit (digit_char n) = true /\ digit_val (digit_char n) = n.
Proof.
  intros Hn. pose proof (digit_char_nat n Hn) as E. unfold is_digit, digit_val.
  split; [|lia]. apply andb_true_intro; split; apply Nat.leb_le; lia.
Qed.

Lemma digit_char_not_T n : 0 <= n <= 9 -> (digit_char n =? "T")%char = false.
Proof.
  intros Hn. destruct (Ascii.eqb_spec (digit_char n) "T") as [E|E]; [|reflexivity].
  exfalso. pose proof (digit_char_nat n Hn) as E'. rewrite E in E'.
  change (Z.of_nat (nat_of_ascii "T")) with 84 in E'. lia.
Qed.

Lemma day_part (d : Z) (r : list ascii) {B} (k : Z -> list ascii -> option B) (b : B) :
  1 <= d <= 31 -> k d r = Some b ->
  first_alt day_alts (digit_char (d / 10) :: digit_char (d mod 10) :: r) k = Some b.
Proof.
  intros Hd Hk.
  assert (H : d = 1 \/ d = 2 \/ d = 3 \/ d = 4 \/ d = 5 \/ d = 6 \/ d = 7 \/ d = 8 \/ d = 9 \/ d = 10 \/ d = 11 \/ d = 12 \/ d = 13 \/ d = 14 \/ d = 15 \/ d = 16 \/ d = 17 \/ d = 18 \/ d = 19 \/ d = 20 \/ d = 21 \/ d = 22 \/ d = 23 \/ d = 24 \/ d = 25 \/ d = 26 \/ d = 27 \/ d = 28 \/ d = 29 \/ d = 30 \/ d = 31) by lia.
  repeat destruct H as [H|H]; subst d; cbv; rewrite Hk; reflexivity.
Qed.

Lemma month_part (m : Z) (r : list ascii) {B} (k : Z -> list ascii -> option B) (b : B) :
  1 <= m <= 12 -> k m r = Some b ->
  first_alt month_alts (digit_char (m / 10) :: digit_char (m mod 10) :: r) k = Some b.
Proof.
  intros Hm Hk.
  assert (H : m = 1 \/ m = 2 \/ m = 3 \/ m = 4 \/ m = 5 \/ m = 6 \/ m = 7 \/ m = 8 \/ m = 9 \/ m = 10 \/ m = 11 \/ m = 12) by lia.
  repeat destruct H as [H|H]; subst m; cbv; rewrite Hk; reflexivity.
Qed.

Lemma match_iso (y m d : Z) (rest : list ascii) :
  0 <= y <= 9999 -> 1 <= m <= 12 -> 1 <= d <= 31 ->
  match_ymd (list_ascii_of_string (isoformat (mkDate y m d)) ++ rest) = Some (y, m, d, rest).
Proof.
  intros Hy Hm Hd. unfold isoformat. cbn [dt_year dt_month dt_day].
  rewrite list_ascii_of_string_of_list_ascii. cbn [app].
  unfold match_ymd.
  destruct (digit_char_ok (y / 1000)) as [D1 V1]; [Z.div_mod_to_equations; lia|].
  destruct (digit_char_ok (y / 100 mod 10)) as [D2 V2]; [Z.div_mod_to_equations; lia|].
  destruct (digit_char_ok (y / 10 mod 10)) as [D3 V3]; [Z.div_mod_to_equations; lia|].
  destruct (digit_char_ok (y mod 10)) as [D4 V4]; [Z.div_mod_to_equations; lia|].
  rewrite D1, D2, D3, D4, V1, V2, V3, V4. cbn [andb].
  change (("-" =? "-")%char) with true. cbv iota.
  replace (1000 * (y / 1000) + 100 * (y / 100 mod 10) + 10 * (y / 10 mod 10) + y mod 10)
    with y by (Z.div_mod_to_equations; lia).
  apply month_part; [exact Hm|].
  change (("-" =? "-")%char) with true. cbv iota.
  apply day_part; [exact Hd|reflexivity].
Qed.

Lemma list_ascii_of_string_app (s1 s2 : string) :
  list_ascii_of_string (s1 ++ s2) = list_ascii_of_string s1 ++ list_ascii_of_string s2.
Proof. induction s1 as [|c s1 IH]; simpl; [reflexivity|]. rewrite IH. reflexivity. Qed.

Lemma before_T_app (l1 l2 : list ascii) :
  ~ In "T"%char l1 -> before_T (l1 ++ l2) = l1 ++ before_T l2.
Proof.
  induction l1 as [|c l1 IH]; intros Hn; simpl; [reflexivity|].
  destruct (Ascii.eqb_spec c "T") as [->|Hc]; [exfalso; apply Hn; left; reflexivity|].
  rewrite IH; [reflexivity|]. intros H; apply Hn; right; exact H.
Qed.


Lemma iso_no_T (dt : pydate) :
  0 <= dt_year dt <= 9999 -> 1 <= dt_month dt <= 12 -> 1 <= dt_day dt <= 31 ->
  ~ In "T"%char (list_ascii_of_string (isoformat dt)).
Proof.
  destruct dt as [y m d]; cbn [dt_year dt_month dt_day]. intros Hy Hm Hd.
  unfold isoformat. rewrite list_ascii_of_string_of_list_ascii. cbn [dt_year dt_month dt_day].
  assert (Hc : forall n, 0 <= n <= 9 -> digit_char n <> "T"%char).
  { intros n Hn E. pose proof (digit_char_not_T n Hn) as F. rewrite E in F. discriminate. }
  intros Hin.
  repeat (destruct Hin as [Hin|Hin]; [try discriminate Hin;
            revert Hin; apply Hc; Z.div_mod_to_equations; lia|]).
  destruct Hin.
Qed.

Lemma iso_parse (dt : pydate) (suffix : list ascii) :
  0 <= dt_year dt <= 9999 -> 1 <= dt_month dt <= 12 -> 1 <= dt_day dt <= 31 ->
  strptime_date (list_ascii_of_string (isoformat dt) ++ suffix) =
    match suffix with
    | [] => if valid_date (dt_year dt) (dt_month dt) (dt_day dt) then POk dt else PErr ValueError
    | _ :: _ => PErr ValueError
    end.
Proof.
  destruct dt as [y m d]; cbn [dt_year dt_month dt_day]. intros Hy Hm Hd.
  unfold strptime_date. rewrite match_iso by assumption.
  destruct suffix; reflexivity.
Qed.

(** X1: a valid date written back with [isoformat] (as [process_sync_row] does for 作業日), optionally followed by a time part after ["T"], is read back by [_date_string_to_date] as the same date. *)
Theorem isoformat_read_back (dt : pydate) (suffix : string) :
  valid_date (dt_year dt) (dt_month dt) (dt_day dt) = true ->
  (suffix = EmptyString \/ exists t, suffix = String "T" t) ->
  date_string_to_date (isoformat dt ++ suffix) = POk dt.
Proof.
  intros Hv Hs.
  assert (Hr : 0 <= dt_year dt <= 9999 /\ 1 <= dt_month dt <= 12 /\ 1 <= dt_day dt <= 31).
  { unfold valid_date, days_in_month in Hv.
    repeat match goal with H : _ && _ = true |- _ => apply andb_prop in H as [? ?] end.
    rewrite !Z.leb_le in *. repeat case_match; lia. }
  destruct Hr as [Hy [Hm Hd]].
  unfold date_string_to_date. rewrite list_ascii_of_string_app.
  rewrite before_T_app by (apply iso_no_T; assumption).
  assert (Hb : before_T (list_ascii_of_string suffix) = []).
  { destruct Hs as [->|[t ->]]; reflexivity. }
  rewrite Hb, iso_parse by assumption. rewrite Hv. reflexivity.
Qed.

(** X2: a date string of the right shape naming a day the calendar does not have (say February 29 of a common year) raises [ValueError]. *)
Theorem impossible_date_rejected (dt : pydate) (suffix : string) :
  0 <= dt_year dt <= 9999 -> 1 <= dt_month dt <= 12 -> 1 <= dt_day dt <= 31 ->
  valid_date (dt_year dt) (dt_month dt) (dt_day dt) = false ->
  (suffix = EmptyString \/ exists t, suffix = String "T" t) ->
  date_string_to_date (isoformat dt ++ suffix) = PErr ValueError.
Proof.
  intros Hy Hm Hd Hv Hs.
  unfold date_string_to_date. rewrite list_ascii_of_string_app.
  rewrite before_T_app by (apply iso_no_T; assumption).
  assert (Hb : before_T (list_ascii_of_string suffix) = []).
  { destruct Hs as [->|[t ->]]; reflexivity. }
  rewrite Hb, iso_parse by assumption. rewrite Hv. reflexivity.
Qed.

(** X3: a well formed date followed by anything but ["T"] (a space and a time, say) raises [ValueError]: only a time part after ["T"] is cut off. *)
Theorem trailing_text_rejected (dt : pydate) (c : ascii) (t : string) :
  0 <= dt_year dt <= 9999 -> 1 <= dt_month dt <= 12 -> 1 <= dt_day dt <= 31 ->
  c <> "T"%char ->
  date_string_to_date (isoformat dt ++ String c t) = PErr ValueError.
Proof.
  intros Hy Hm Hd Hc.
  unfold date_string_to_date. rewrite list_ascii_of_string_app.
  rewrite before_T_app by (apply iso_no_T; assumption).
  cbn [list_ascii_of_string before_T].
  destruct (Ascii.eqb_spec c "T") as [E|_]; [contradiction|].
  rewrite iso_parse by assumption. reflexivity.
Qed.


Lemma wbind_ok_inv {A B} (m : Py A) (f : A -> Py B) o b :
  wbind m f = (o, POk b) ->
  exists o1 a o2, m = (o1, POk a) /\ f a = (o2, POk b) /\ o = o1 ++ o2.
Proof.
  destruct m as [o1 [a|e]]; simpl; [|congruence].
  destruct (f a) as [o2 r] eqn:E. intros H; inversion H; subst. eauto 10.
Qed.

Lemma wbind_ok {A B} (m : Py A) (f : A -> Py B) o1 a :
  m = (o1, POk a) -> wbind m f = (o1 ++ fst (f a), snd (f a)).
Proof. intros ->. simpl. destruct (f a); reflexivity. Qed.

Lemma wbind_err {A B} (m : Py A) (f : A -> Py B) o1 e :
  m = (o1, PErr e) -> wbind m f = (o1, PErr e).
Proof. intros ->. reflexivity. Qed.

Lemma convert_all_in {A} (f : json -> Py A) msg raws o xs :
  convert_all f msg raws = (o, POk xs) ->
  forall x, In x xs -> exists r o', In r raws /\ f r = (o', POk x).
Proof.
  revert o xs. induction raws as [|r rs IH]; simpl; intros o xs H x Hx.
  - inversion H; subst. destruct Hx.
  - apply wbind_ok_inv in H as (o1 & y & o2 & H1 & H2 & _).
    apply wbind_ok_inv in H2 as (o3 & ys & o4 & H3 & H4 & _).
    inversion H4; subst. apply in_app_or in Hx as [Hx|Hx].
    + destruct (f r) as [o' [a|e]] eqn:E.
      * inversion H1; subst. destruct Hx as [<-|[]]. eauto.
      * destruct (is_obj r); inversion H1; subst. destruct Hx.
    + destruct (IH _ _ H3 x Hx) as (r' & o' & Hr & Hf). eauto.
Qed.

Lemma convert_all_objs {A} (f : json -> Py A) msg raws :
  Forall (fun r => is_obj r = true) raws ->
  snd (convert_all f msg raws) = POk (ok_items f raws).
Proof.
  induction 1 as [|r rs Hr Hrs IH]; [reflexivity|]. simpl.
  destruct (convert_all f msg rs) as [o2 [ys|e]] eqn:E; simpl in IH; inversion IH; subst.
  destruct (f r) as [o [a|e']]; simpl; [|rewrite Hr]; reflexivity.
Qed.

Lemma convert_all_abort {A} (f : json -> Py A) msg pre r post :
  Forall (fun r => is_obj r = true) pre -> is_obj r = false ->
  (forall o a, f r <> (o, POk a)) ->
  snd (convert_all f msg (pre ++ r :: post)) = PErr AttributeError.
Proof.
  intros Hpre Hr Hf. induction Hpre as [|r0 rs Hr0 Hrs IH]; simpl.
  - destruct (f r) as [o [a|e]] eqn:E; [exfalso; eapply Hf; eauto|]. rewrite Hr. reflexivity.
  - destruct (f r0) as [o [a|e]]; [|rewrite Hr0]; simpl;
      destruct (convert_all f msg (rs ++ r :: post)) as [o2 [ys|e']];
      simpl in IH; inversion IH; reflexivity.
Qed.

Lemma convert_task_non_obj P S r :
  is_obj r = false -> convert_task P S r = ([], PErr TypeError).
Proof. destruct r; simpl; try discriminate; reflexivity. Qed.

Lemma get_item_no_col df in_cul v out_cul :
  in_cul ∉ df_columns df -> get_item_from_pd df in_cul v out_cul = praise LError "Error: Columns missing" ValueError.
Proof.
  intros H. unfold get_item_from_pd. rewrite (bool_decide_eq_false_2 _ H). reflexivity.
Qed.

Ltac peel :=
  repeat match goal with
  | H : wbind _ _ = (_, POk _) |- _ =>
      let o1 := fresh "o" in let a := fresh "a" in let o2 := fresh "o" in
      let H1 := fresh "H" in let H2 := fresh "H" in
      apply wbind_ok_inv in H as (o1 & a & o2 & H1 & H2 & _); cbv beta in H2
  end.

Lemma convert_task_project_unresolved P S r o t :
  "id" ∉ df_columns P -> convert_task P S r = (o, POk t) -> t_project t = Some (JStr "").
Proof.
  intros Hc H. unfold convert_task in H. peel.
  match goal with
  | H : (if ?c then _ else pret (Some (JStr ""))) = (_, POk _) |- _ =>
      destruct c; [peel; rewrite get_item_no_col in *; [discriminate|exact Hc] | inversion H; subst]
  end.
  match goal with H : pret _ = (_, POk t) |- _ => inversion H; reflexivity end.
Qed.

Lemma pbind_ok_inv {A B} (m : pyres A) (f : A -> pyres B) b :
  pbind m f = POk b -> exists a, m = POk a /\ f a = POk b.
Proof. destruct m; simpl; [eauto|discriminate]. Qed.

Ltac ppeel :=
  repeat match goal with
  | H : pbind _ _ = POk _ |- _ =>
      let a := fresh "a" in let H1 := fresh "H" in
      apply pbind_ok_inv in H as (a & H1 & H); cbv beta in H
  end.

Lemma related_item_shape elem r x : related_item elem r = POk x -> related_shape x.
Proof. unfold related_item. intros H. ppeel. inversion H; subst. eexists _, _, _. reflexivity. Qed.

Lemma related_process_shape raws o items :
  related_process raws = (o, POk items) -> Forall related_shape items.
Proof.
  unfold related_process. destruct raws as [|first rest]; intros H.
  - inversion H; subst. constructor.
  - peel. apply Forall_forall. intros x Hx. apply list_elem_of_In in Hx.
    repeat match goal with H : (if ?c then _ else _) = _ |- _ => destruct c end;
      [..|peel; match goal with H : pret _ = _ |- _ => inversion H; subst; destruct Hx end];
      match goal with
      | H : convert_all _ _ _ = (_, POk _) |- _ =>
          destruct (convert_all_in _ _ _ _ _ H x Hx) as (r & o' & _ & Hr);
          unfold plift in Hr; inversion Hr; eapply related_item_shape; eassumption
      end.
Qed.

(** ** [_parse_date_property] *)

(** X5: a date property whose ["start"] is a malformed date string raises, whatever [field] and [return_range] are asked for. *)
Theorem malformed_start_raises kv s e field return_range :
  dict_lookup kv "start" = Some (JStr s) -> date_string_to_date s = PErr e ->
  parse_date_property (JObj kv) field return_range = PErr e.
Proof. intros Hs He. unfold parse_date_property. simpl. rewrite Hs. simpl. rewrite He. reflexivity. Qed.

(** X6: when the first raw item of a related database has neither プロジェクト名 nor スプリント名 among its properties, [_process_raw_to_dict] logs a warning and returns no item, whatever the other items hold. *)
Theorem related_untitled_first first rest kv :
  getitem first "properties" = POk (JObj kv) ->
  PJ_NAME ∉ map fst kv -> SPRINT_NAME ∉ map fst kv ->
  related_process (first :: rest) =
    ([(LWarning, "関連DBのタイトルプロパティが見つかりませんでした。")], POk []).
Proof.
  intros Hp Hpj Hsp. simpl. rewrite Hp. simpl. unfold dict_keys.
  rewrite !bool_decide_eq_false_2 by (rewrite elem_of_remove_dups; assumption).
  reflexivity.
Qed.

Lemma find_skip (pre : list (list (string * json))) it post v :
  Forall (fun x => dict_lookup x "id" <> Some (JStr v)) pre ->
  dict_lookup it "id" = Some (JStr v) ->
  List.find (fun row => cell_matches (dict_lookup row "id") (JStr v)) (pre ++ it :: post) = Some it.
Proof.
  intros Hpre Hit. induction Hpre as [|x pre Hx _ IH]; simpl.
  - rewrite Hit. simpl. rewrite String.eqb_refl. reflexivity.
  - rewrite IH. destruct (dict_lookup x "id") as [[]|]; simpl; try reflexivity.
    destruct (String.eqb_spec s v); [subst; congruence|reflexivity].
Qed.

(** X7: in the frame built from the items of a related database, looking up an id with [get_item_from_pd("id", v, "title")] returns the title of the first item carrying that id, and that title is a value (never NaN). *)
Theorem related_title_lookup raws o pre it post v :
  related_process raws = (o, POk (pre ++ it :: post)) ->
  dict_lookup it "id" = Some (JStr v) ->
  Forall (fun x => dict_lookup x "id" <> Some (JStr v)) pre ->
  exists t, dict_lookup it "title" = Some t /\
    get_item_from_pd (normalize (pre ++ it :: post)) "id" (JStr v) "title" = pret (Some t).
Proof.
  intros H Hid Hpre.
  pose proof (related_process_shape _ _ _ H) as Hs.
  rewrite Forall_forall in Hs. destruct (Hs it) as (t & i & st & ->); [set_solver|].
  exists t. split; [reflexivity|].
  assert (Hc : forall k, k ∈ ["title"; "id"; "status"] ->
            k ∈ df_columns (normalize (pre ++ [("title", t); ("id", i); ("status", st)] :: post))).
  { intros k Hk. unfold normalize; cbn [df_columns]. rewrite elem_of_remove_dups, list_elem_of_In, in_concat.
    exists ["title"; "id"; "status"]. split; [|apply list_elem_of_In; exact Hk].
    apply in_map_iff. exists [("title", t); ("id", i); ("status", st)]. split; [reflexivity|]. apply in_or_app. right. left. reflexivity. }
  unfold get_item_from_pd.
  rewrite !bool_decide_eq_true_2 by (apply Hc; set_solver).
  simpl. rewrite find_skip by assumption. reflexivity.
Qed.

(** ** [TaskDB._process_raw_to_dict] *)
(** X8: when every raw task is an object, the converted tasks are exactly those that convert on their own, in order; a task whose conversion raises is skipped and does not affect the others. *)
Theorem tasks_converted_independently P S raws :
  Forall (fun r => is_obj r = true) raws ->
  snd (task_process P S raws) = POk (ok_items (convert_task P S) raws).
Proof. apply convert_all_objs. Qed.

(** X9: a raw task that is not an object, after a prefix of objects, makes the whole conversion raise [AttributeError] (raised by [raw_task.get] in the handler). *)
Theorem non_object_task_aborts P S pre r post :
  Forall (fun r => is_obj r = true) pre -> is_obj r = false ->
  snd (task_process P S (pre ++ r :: post)) = PErr AttributeError.
Proof.
  intros Hpre Hr. apply convert_all_abort; [assumption|assumption|].
  intros o a. rewrite convert_task_non_obj by assumption. discriminate.
Qed.

Lemma task_process_project_unresolved P S raws o ts :
  "id" ∉ df_columns P -> task_process P S raws = (o, POk ts) ->
  Forall (fun t => t_project t = Some (JStr "")) ts.
Proof.
  intros Hc H. apply Forall_forall. intros t Ht.
  destruct (convert_all_in _ _ _ _ _ H t (proj1 (list_elem_of_In _ _) Ht)) as (r & o' & _ & Hr).
  eapply convert_task_project_unresolved; eassumption.
Qed.


(** ** Pagination *)

Lemma page_step post fuel cur acc items more nc :
  page_reply (post (query_payload cur)) items more nc ->
  fetch_pages post (S fuel) cur acc =
    if more then fetch_pages post fuel nc (acc ++ items)
    else Some ([(LInfo, "Fetched items")], POk (acc ++ items)).
Proof.
  intros (kv & Hr & Hres & Hmore & Hnc). simpl. rewrite Hr. simpl.
  rewrite Hres. simpl. destruct (dict_lookup kv "has_more") as [hm|] eqn:Ehm;
  destruct (dict_lookup kv "next_cursor") as [c|] eqn:Ec; simpl in *; subst; reflexivity.
Qed.

Lemma fetch_chain post pages cur last fuel acc :
  more_pages post cur pages last ->
  fetch_pages post fuel cur acc =
    if (List.length pages <=? fuel)%nat
    then fetch_pages post (fuel - List.length pages) last (acc ++ List.concat pages)
    else None.
Proof.
  revert cur fuel acc. induction pages as [|items rest IH]; simpl; intros cur fuel acc H.
  - subst. rewrite Nat.sub_0_r, app_nil_r. reflexivity.
  - destruct H as (nc & Hp & Hrest). destruct fuel as [|fuel]; [reflexivity|].
    rewrite (page_step _ _ _ _ _ _ _ Hp). rewrite (IH _ _ _ Hrest).
    rewrite app_assoc. reflexivity.
Qed.

Lemma fetch_cursor_falsy post fuel c acc :
  truthy c = false -> fetch_pages post fuel c acc = fetch_pages post fuel JNull acc.
Proof. intros Hc. destruct fuel; [reflexivity|]. simpl. unfold query_payload. rewrite Hc. reflexivity. Qed.

(** X12: when the server answers pages chained by [has_more] and [next_cursor], [_get_raw_data] returns the concatenation of their results in order. *)
Theorem fetch_concatenates_pages post pages cur items nc fuel :
  more_pages post JNull pages cur ->
  page_reply (post (query_payload cur)) items false nc ->
  (List.length pages < fuel)%nat ->
  get_raw_data post fuel = Some ([(LInfo, "Fetched items")], POk (List.concat pages ++ items)).
Proof.
  intros Hch Hlast Hf. unfold get_raw_data. rewrite (fetch_chain _ _ _ _ _ _ Hch).
  rewrite (proj2 (Nat.leb_le _ _)) by lia.
  replace (fuel - List.length pages)%nat with (S (fuel - S (List.length pages))) by lia.
  rewrite (page_step _ _ _ _ _ _ _ Hlast). reflexivity.
Qed.

(** X13: a reply other than 200 on any page makes [_get_raw_data] raise; the pages fetched before are discarded. *)
Theorem fetch_error_discards_pages post pages cur res fuel :
  more_pages post JNull pages cur ->
  post (query_payload cur) = Some res -> r_status res <> 200 ->
  (List.length pages < fuel)%nat ->
  get_raw_data post fuel = Some ([(LError, "Error getting DB")], PErr NotionError).
Proof.
  intros Hch Hr Hs Hf. unfold get_raw_data. rewrite (fetch_chain _ _ _ _ _ _ Hch).
  rewrite (proj2 (Nat.leb_le _ _)) by lia.
  replace (fuel - List.length pages)%nat with (S (fuel - S (List.length pages))) by lia.
  simpl. rewrite Hr. apply Z.eqb_neq in Hs. rewrite Hs. reflexivity.
Qed.

(** X14: a page that says [has_more] but gives a falsy [next_cursor] sends the loop back to the first page: [_get_raw_data] never returns. *)
Theorem fetch_loops_without_cursor post pages cur fuel :
  pages <> [] -> more_pages post JNull pages cur -> truthy cur = false ->
  get_raw_data post fuel = None.
Proof.
  intros Hne Hch Hc. unfold get_raw_data. generalize (@nil json) as acc.
  induction fuel as [fuel IH] using lt_wf_ind. intros acc.
  rewrite (fetch_chain _ _ _ _ _ _ Hch).
  destruct (List.length pages <=? fuel)%nat eqn:E; [|reflexivity].
  apply Nat.leb_le in E. rewrite fetch_cursor_falsy by assumption.
  apply IH. destruct pages; [congruence|simpl in *; lia].
Qed.

(** ** [main] *)

(** X15: when fetching the task database raises, [main] makes no store call, leaves the stores as they are, and reports "No tasks found in Notion DB." at info level. *)
Theorem task_db_down_no_tasks row_of_task post_pj post_sp post_task fuel o1 pj o2 sp o e :
  load_items post_pj fuel related_process = Some (o1, pj) ->
  load_items post_sp fuel related_process = Some (o2, sp) ->
  get_raw_data post_task fuel = Some (o, PErr e) ->
  exists m, sync_main row_of_task true true true post_pj post_sp post_task fuel = Some m /\
    forall s, m s = (s, [OLog LInfo START_MSG] ++
                        map (fun '(l, msg) => OLog l msg)
                            (o1 ++ o2 ++ o ++ [(LError, "Failed to load or process data")]) ++
                        [OLog LInfo "No tasks found in Notion DB."; OLog LInfo FINISH_MSG], Ok tt).
Proof.
  intros H1 H2 H3. unfold sync_main. simpl. rewrite H1, H2.
  unfold load_items at 1. rewrite H3.
  eexists; split; [reflexivity|]. intros s.
  cbv [bind log ret log_all sync_pass try_except]. simpl.
  reflexivity.
Qed.

Lemma load_items_from {A} post fuel (process : list json -> Py (list A)) o items x :
  load_items post fuel process = Some (o, items) -> x ∈ items ->
  exists raws o', process raws = (o', POk items).
Proof.
  unfold load_items. destruct (get_raw_data post fuel) as [[o0 [raws|e]]|]; intros H Hx; try discriminate.
  - destruct (process raws) as [o2 [its|e]] eqn:E; inversion H; subst; [eauto|].
    apply not_elem_of_nil in Hx. contradiction.
  - inversion H; subst. apply not_elem_of_nil in Hx. contradiction.
Qed.

(** X16: when the Projects database yields no item, every row [main] passes to [process_sync_row] comes from a task with an empty project. *)
Theorem projects_down_rows_without_project row_of_task post_pj post_sp post_task fuel m o1 :
  load_items post_pj fuel related_process = Some (o1, []) ->
  sync_main row_of_task true true true post_pj post_sp post_task fuel = Some m ->
  exists o tasks, Forall (fun t => t_project t = Some (JStr "")) tasks /\
    forall s, m s = (let* _ := log LInfo START_MSG in
                     let* _ := log_all o in
                     let* _ := sync_pass (map row_of_task tasks) in
                     log LInfo FINISH_MSG) s.
Proof.
  intros H1 Hm. unfold sync_main in Hm. simpl in Hm. rewrite H1 in Hm.
  destruct (load_items post_sp fuel related_process) as [[o2 sp]|]; [|discriminate].
  destruct (load_items post_task fuel (task_process (normalize []) (normalize sp)))
    as [[o3 tasks]|] eqn:E3; [|discriminate].
  inversion Hm; subst. exists (o1 ++ o2 ++ o3), tasks. split; [|reflexivity].
  apply Forall_forall. intros t Ht.
  destruct (load_items_from _ _ _ _ _ _ E3 Ht) as (raws & o' & Hp).
  revert t Ht. apply Forall_forall.
  eapply task_process_project_unresolved; [|exact Hp]. simpl. apply not_elem_of_nil.
Qed.

(** X11: a task whose properties lack GCal_Event_ID, or whose rich_text is missing, is converted with [gcal_event_id = None]. *)
Theorem missing_event_id_is_none P S r kv o t :
  convert_task P S r = (o, POk t) ->
  getitem r "properties" = POk (JObj kv) ->
  (dict_lookup kv "GCal_Event_ID" = None \/
   exists kv', dict_lookup kv "GCal_Event_ID" = Some (JObj kv') /\
     (dict_lookup kv' "rich_text" = None \/ dict_lookup kv' "rich_text" = Some (JArr []))) ->
  t_gcal_event_id t = JNull.
Proof.
  intros H Hp Hg. unfold convert_task in H. peel.
  match goal with
  | H : plift (getitem r "properties") = (_, POk ?p) |- _ =>
      unfold plift in H; rewrite Hp in H; inversion H; subst p
  end.
  match goal with
  | H : plift (pyget (JObj kv) "GCal_Event_ID" _) = (_, POk ?g) |- _ =>
      unfold plift, pyget in H; inversion H; subst g
  end.
  match goal with
  | H : plift (pyget _ "rich_text" _) = (_, POk ?g) |- _ =>
      assert (Hf : truthy g = false);
      [destruct Hg as [Hn|(kv' & Hs & Hr)];
       [rewrite Hn in H; inversion H; reflexivity
       |rewrite Hs in H; unfold plift, pyget in H; destruct Hr as [Hr|Hr]; rewrite Hr in H;
        inversion H; reflexivity]|]
  end.
  match goal with
  | H : (if truthy ?g then _ else _) = (_, POk _) |- _ => rewrite Hf in H; inversion H; subst
  end.
  match goal with H : pret _ = (_, POk t) |- _ => inversion H; reflexivity end.
Qed.

(** ** [append_children] *)



(** ** Instances of the claims' hypotheses *)

Definition w_row_hold : Row := mkRow "t1" "A" "" "保留中" (Some 1) None (TS 5).
Definition w_row_new : Row := mkRow "t2" "B" "P" "未着手" (Some 3) None (TS 5).
Definition w_row_live : Row := mkRow "t3" "C" "" "進行中" (Some 4) (Some "e") (TS 5).
Definition w_row_held : Row := mkRow "t4" "D" "" "保留中" (Some 4) (Some "e") (TS 5).
Definition w_event : Event := mkEvent (Some "X") (Some (RDate 2)) (Some (TS 50)).
Definition w_pages : gmap string Row :=
  {[ "t1" := w_row_hold; "t2" := w_row_new; "t3" := w_row_live; "t4" := w_row_held ]}.
Definition w_store : Store := mkStore {[ "e" := w_event ]} w_pages 100 0 7 (fun _ => false).
Definition w_store_empty : Store := mkStore ∅ w_pages 100 0 7 (fun _ => false).
Definition w_store_down : Store :=
  mkStore {[ "e" := w_event ]} w_pages 100 0 7
          (fun c => match c with CGet _ => true | _ => false end).
Definition w_store_page_down : Store :=
  mkStore {[ "e" := w_event ]} w_pages 100 0 7
          (fun c => match c with CUpdatePage _ _ => true | _ => false end).

Lemma no_mirror_for_canceled_witness :
  is_canceled_of (row_work_date w_row_hold) (row_status w_row_hold) = true /\
  row_gcal_event_id w_row_hold = None /\
  st_of (process_sync_row w_row_hold w_store) = w_store /\
  calls_of (out_of (process_sync_row w_row_hold w_store)) = [].
Proof.
  split; [reflexivity|]. split; [reflexivity|].
  apply no_mirror_for_canceled; reflexivity.
Defined.

Lemma deleted_mirror_stable_witness :
  truthy_id (row_gcal_event_id w_row_live) = Some "e" /\
  st_events w_store_empty !! "e" = None /\
  st_of (process_sync_row w_row_live w_store_empty) = w_store_empty /\
  writes_of (out_of (process_sync_row w_row_live w_store_empty)) = [].
Proof.
  split; [reflexivity|]. split; [reflexivity|].
  destruct (deleted_mirror_stable w_row_live w_store_empty "e") as [H1 [H2 _]];
    [reflexivity|reflexivity|].
  split; assumption.
Defined.

Lemma fetch_error_as_not_found_witness :
  truthy_id (row_gcal_event_id w_row_live) = Some "e" /\
  st_fail w_store_down (CGet "e") = true /\
  st_of (process_sync_row w_row_live w_store_down) = w_store_down.
Proof.
  split; [reflexivity|]. split; [reflexivity|].
  pose proof (fetch_error_as_not_found w_row_live w_store_down "e"
                ltac:(reflexivity) ltac:(reflexivity)) as H.
  cbv zeta in H. destruct H as [_ [_ [H _]]]. exact H.
Defined.

Lemma canceled_title_only_update_witness :
  is_canceled_of (row_work_date w_row_held) (row_status w_row_held) = true /\
  default "" (ev_summary w_event) <>
    target_title_of true (display_title_of (row_title w_row_held) (row_project w_row_held)) /\
  calls_of (out_of (process_sync_row w_row_held w_store)) =
    [CGet "e"; CUpdateEvent "e" (target_title_of true (display_title_of "D" "")) (Some 2)].
Proof.
  assert (Hne : default "" (ev_summary w_event) <>
    target_title_of true (display_title_of (row_title w_row_held) (row_project w_row_held))).
  { vm_compute. discriminate. }
  split; [reflexivity|]. split; [exact Hne|].
  destruct (canceled_title_only_update w_row_held w_store "e" w_event 5 50 (Some 2)
              ltac:(reflexivity) ltac:(reflexivity) ltac:(reflexivity)
              ltac:(reflexivity) ltac:(reflexivity) ltac:(reflexivity)
              ltac:(reflexivity)) as [H _].
  exact (H Hne).
Defined.

Lemma last_writer_wins_witness :
  row_work_date w_row_live = Some 4 /\
  is_canceled_of (row_work_date w_row_live) (row_status w_row_live) = false /\
  st_events w_store !! "e" = Some w_event /\
  calls_of (out_of (process_sync_row w_row_live w_store)) =
    [CGet "e"; CUpdatePage "t3" (PWorkDate 2)].
Proof.
  split; [reflexivity|]. split; [reflexivity|]. split; [reflexivity|].
  assert (Hne : ~ (default "" (ev_summary w_event) =
                     display_title_of (row_title w_row_live) (row_project w_row_live) /\
                   Some 2 = Some 4)) by (intros [_ Hd]; discriminate).
  destruct (last_writer_wins w_row_live w_store "e" w_event 4 5 50 (Some 2)
              ltac:(reflexivity) ltac:(reflexivity) ltac:(reflexivity)
              ltac:(reflexivity) ltac:(reflexivity) ltac:(reflexivity)
              ltac:(reflexivity) ltac:(reflexivity) Hne) as [_ [H _]].
  exact (H ltac:(lia) 2 eq_refl ltac:(lia)).
Defined.

Lemma create_on_first_sync_witness :
  row_work_date w_row_new = Some 3 /\
  is_canceled_of (row_work_date w_row_new) (row_status w_row_new) = false /\
  row_gcal_event_id w_row_new = None /\
  calls_of (out_of (process_sync_row w_row_new w_store)) =
    [CCreate (display_title_of "B" "P") 3; CUpdatePage "t2" (PEventId "evt0")].
Proof.
  split; [reflexivity|]. split; [reflexivity|]. split; [reflexivity|].
  pose proof (create_on_first_sync w_row_new w_store 3 5
                ltac:(reflexivity) ltac:(reflexivity) ltac:(reflexivity)
                ltac:(reflexivity)) as H.
  cbv zeta in H. destruct (H ltac:(reflexivity)) as [Hc _]. exact Hc.
Defined.

Lemma atomic_first_sync_witness :
  st_fail w_store_page_down (CCreate (display_title_of "B" "P") 3) = false /\
  st_fail w_store_page_down (CUpdatePage "t2" (PEventId "evt0")) = true /\
  st_pages (st_of (process_sync_row w_row_new w_store_page_down)) = w_pages.
Proof.
  split; [reflexivity|]. split; [reflexivity|].
  pose proof (atomic_first_sync w_row_new w_store_page_down 3 5
                ltac:(reflexivity) ltac:(reflexivity) ltac:(reflexivity)
                ltac:(reflexivity)) as H.
  cbv zeta in H. destruct H as [_ H].
  destruct (H ltac:(reflexivity)) as [Hp _]; [left; reflexivity|exact Hp].
Defined.

Lemma mirror_id_write_once_witness :
  truthy_id (row_gcal_event_id w_row_live) = Some "e" /\
  ids_kept w_store (st_of (process_sync_row w_row_live w_store)).
Proof.
  split; [reflexivity|].
  destruct (mirror_id_write_once w_row_live w_store) as [_ H].
  exact (proj1 (H "e" ltac:(reflexivity))).
Defined.

(** ** Instances of the extra properties' hypotheses *)

Definition jtext (s : string) : json := JArr [JObj [("plain_text", JStr s)]].
Definition raw1 : json := JObj [("id", JStr "p1"); ("last_edited_time", JStr "2025-01-01T00:00:00.000Z");
  ("properties", JObj [("タスク名", JObj [("title", jtext "T")]);
                       ("プロジェクト", JObj [("relation", JArr [JObj [("id", JStr "pj1")]])]);
                       ("スプリント", JObj [("relation", JArr [])]);
                       ("期限", JObj [("date", JObj [("start", JStr "2025-02-28"); ("end", JNull)])]);
                       ("ステータス", JObj [("status", JObj [("name", JStr "未着手")])]);
                       ("タグ", JObj [("multi_select", JArr [])]);
                       ("作業日", JObj [("date", JNull)]);
                       ("GCal_Event_ID", JObj [("rich_text", jtext "evt1")])])].
Definition rawpj : json := JObj [("id", JStr "pj1"); ("properties", JObj [("プロジェクト名", JObj [("title", jtext "PJ")]); ("ステータス", JObj [("status", JObj [("id", JStr "s")])])])].

Definition srv1 : server := fun p => match p with
  | JObj [_] => Some (mkResp 200 (Some (JObj [("results", JArr [JNum 1; JNum 2]); ("has_more", JBool true); ("next_cursor", JStr "c")])))
  | _ => Some (mkResp 200 (Some (JObj [("results", JArr [JNum 3]); ("has_more", JBool false)])))
  end.

Definition raw_plain : json := JObj [("id", JStr "p2"); ("last_edited_time", JStr "2025-01-02T00:00:00.000Z");
  ("properties", JObj [("タスク名", JObj [("title", jtext "U")]);
                       ("プロジェクト", JObj [("relation", JArr [])]);
                       ("スプリント", JObj [("relation", JArr [])]);
                       ("期限", JObj [("date", JNull)]);
                       ("ステータス", JObj [("status", JObj [("name", JStr "未着手")])]);
                       ("タグ", JObj [("multi_select", JArr [JObj [("name", JStr "開発")]])]);
                       ("作業日", JObj [("date", JObj [("start", JStr "2025-03-01")])])])].
Definition rawpj0 : json := JObj [("id", JStr "pj0"); ("properties", JObj [("プロジェクト名", JObj [("title", jtext "PJ0")]); ("ステータス", JObj [("status", JObj [("id", JStr "s")])])])].
Definition raw_untitled : json := JObj [("id", JStr "x"); ("properties", JObj [("Name", JObj [("title", jtext "N")])])].

Definition srv_down : server := fun _ => Some (mkResp 500 None).
Definition srv_err2 : server := fun p => match p with
  | JObj [_] => Some (mkResp 200 (Some (JObj [("results", JArr [JNum 1]); ("has_more", JBool true); ("next_cursor", JStr "c")])))
  | _ => Some (mkResp 502 None)
  end.
Definition srv_nocursor : server := fun _ =>
  Some (mkResp 200 (Some (JObj [("results", JArr [JNum 1]); ("has_more", JBool true); ("next_cursor", JNull)]))).
Definition srv_tasks : server := fun _ =>
  Some (mkResp 200 (Some (JObj [("results", JArr [raw1; raw_plain]); ("has_more", JBool false)]))).

Definition w_row_of_task (t : task) : Row :=
  mkRow "p" "T" "" "未着手" None None (TS 0).

Lemma isoformat_read_back_witness :
  valid_date 2024 2 29 = true /\
  date_string_to_date (isoformat (mkDate 2024 2 29) ++ "T09:00:00.000+09:00") = POk (mkDate 2024 2 29).
Proof.
  split; [reflexivity|].
  apply (isoformat_read_back (mkDate 2024 2 29) "T09:00:00.000+09:00" eq_refl).
  right. eexists. reflexivity.
Defined.

Lemma impossible_date_rejected_witness :
  valid_date 2025 2 29 = false /\
  date_string_to_date (isoformat (mkDate 2025 2 29) ++ "") = PErr ValueError.
Proof.
  split; [reflexivity|].
  apply (impossible_date_rejected (mkDate 2025 2 29) ""); simpl; try lia; [reflexivity|].
  left. reflexivity.
Defined.

Lemma trailing_text_rejected_witness :
  " "%char <> "T"%char /\
  date_string_to_date (isoformat (mkDate 2025 12 31) ++ String " " "09:00") = PErr ValueError.
Proof.
  split; [discriminate|].
  apply (trailing_text_rejected (mkDate 2025 12 31) " " "09:00"); simpl; try lia. discriminate.
Defined.


Lemma malformed_start_raises_witness :
  date_string_to_date "2025-02-30" = PErr ValueError /\
  parse_date_property (JObj [("start", JStr "2025-02-30"); ("end", JStr "2025-03-02")]) "end" false
    = PErr ValueError.
Proof.
  split; [vm_compute; reflexivity|].
  apply (malformed_start_raises _ "2025-02-30"); vm_compute; reflexivity.
Defined.

Lemma related_untitled_first_witness :
  getitem raw_untitled "properties" = POk (JObj [("Name", JObj [("title", jtext "N")])]) /\
  related_process [raw_untitled; rawpj] =
    ([(LWarning, "関連DBのタイトルプロパティが見つかりませんでした。")], POk []).
Proof.
  split; [reflexivity|].
  apply (related_untitled_first _ _ [("Name", JObj [("title", jtext "N")])]); [reflexivity| |];
    simpl; rewrite list_elem_of_In; simpl; intuition discriminate.
Defined.

Definition w_pj_items : list (list (string * json)) :=
  [[("title", JStr "PJ0"); ("id", JStr "pj0"); ("status", JStr "s")];
   [("title", JStr "PJ"); ("id", JStr "pj1"); ("status", JStr "s")]].

Lemma related_title_lookup_witness :
  related_process [rawpj0; rawpj] = ([], POk w_pj_items) /\
  exists t, dict_lookup [("title", JStr "PJ"); ("id", JStr "pj1"); ("status", JStr "s")] "title" = Some t /\
    get_item_from_pd (normalize w_pj_items) "id" (JStr "pj1") "title" = pret (Some t).
Proof.
  split; [vm_compute; reflexivity|].
  apply (related_title_lookup [rawpj0; rawpj] []
           [[("title", JStr "PJ0"); ("id", JStr "pj0"); ("status", JStr "s")]]
           [("title", JStr "PJ"); ("id", JStr "pj1"); ("status", JStr "s")] [] "pj1");
    [vm_compute; reflexivity|reflexivity|].
  repeat constructor. discriminate.
Defined.

Lemma tasks_converted_independently_witness :
  Forall (fun r => is_obj r = true) [raw1; JObj []; raw_plain] /\
  snd (task_process (normalize w_pj_items) empty_frame [raw1; JObj []; raw_plain]) =
    POk (ok_items (convert_task (normalize w_pj_items) empty_frame) [raw1; JObj []; raw_plain]).
Proof.
  assert (H : Forall (fun r => is_obj r = true) [raw1; JObj []; raw_plain]) by repeat constructor.
  split; [exact H|]. exact (tasks_converted_independently _ _ _ H).
Defined.

Lemma non_object_task_aborts_witness :
  Forall (fun r => is_obj r = true) [raw1] /\ is_obj (JStr "x") = false /\
  snd (task_process (normalize w_pj_items) empty_frame ([raw1] ++ JStr "x" :: [raw_plain])) =
    PErr AttributeError.
Proof.
  assert (H : Forall (fun r => is_obj r = true) [raw1]) by repeat constructor.
  split; [exact H|]. split; [reflexivity|].
  exact (non_object_task_aborts _ _ _ (JStr "x") _ H eq_refl).
Defined.



Lemma fetch_concatenates_pages_witness :
  more_pages srv1 JNull [[JNum 1; JNum 2]] (JStr "c") /\
  page_reply (srv1 (query_payload (JStr "c"))) [JNum 3] false JNull /\
  get_raw_data srv1 2 = Some ([(LInfo, "Fetched items")], POk (List.concat [[JNum 1; JNum 2]] ++ [JNum 3])).
Proof.
  assert (H1 : more_pages srv1 JNull [[JNum 1; JNum 2]] (JStr "c")).
  { simpl. exists (JStr "c"). split; [|reflexivity]. eexists. repeat split. }
  assert (H2 : page_reply (srv1 (query_payload (JStr "c"))) [JNum 3] false JNull).
  { eexists. repeat split. }
  split; [exact H1|]. split; [exact H2|].
  exact (fetch_concatenates_pages _ _ _ _ _ 2 H1 H2 ltac:(simpl; lia)).
Defined.

Lemma fetch_error_discards_pages_witness :
  more_pages srv_err2 JNull [[JNum 1]] (JStr "c") /\
  srv_err2 (query_payload (JStr "c")) = Some (mkResp 502 None) /\
  get_raw_data srv_err2 5 = Some ([(LError, "Error getting DB")], PErr NotionError).
Proof.
  assert (H1 : more_pages srv_err2 JNull [[JNum 1]] (JStr "c")).
  { simpl. exists (JStr "c"). split; [|reflexivity]. eexists. repeat split. }
  split; [exact H1|]. split; [reflexivity|].
  exact (fetch_error_discards_pages _ _ _ _ 5 H1 eq_refl ltac:(simpl; lia) ltac:(simpl; lia)).
Defined.

Lemma fetch_loops_without_cursor_witness :
  more_pages srv_nocursor JNull [[JNum 1]] JNull /\ get_raw_data srv_nocursor 50 = None.
Proof.
  assert (H1 : more_pages srv_nocursor JNull [[JNum 1]] JNull).
  { simpl. exists JNull. split; [|reflexivity]. eexists. repeat split. }
  split; [exact H1|].
  exact (fetch_loops_without_cursor srv_nocursor [[JNum 1]] JNull 50 ltac:(discriminate) H1 eq_refl).
Defined.

Definition w_down_out : list (level * string) :=
  [(LError, "Error getting DB"); (LError, "Failed to load or process data")].

Lemma task_db_down_no_tasks_witness :
  load_items srv_down 3 related_process = Some (w_down_out, []) /\
  get_raw_data srv_down 3 = Some ([(LError, "Error getting DB")], PErr NotionError) /\
  exists m, sync_main w_row_of_task true true true srv_down srv_down srv_down 3 = Some m /\
    forall s, m s = (s, [OLog LInfo START_MSG] ++
                        map (fun '(l, msg) => OLog l msg)
                            (w_down_out ++ w_down_out ++ [(LError, "Error getting DB")] ++
                             [(LError, "Failed to load or process data")]) ++
                        [OLog LInfo "No tasks found in Notion DB."; OLog LInfo FINISH_MSG], Ok tt).
Proof.
  split; [reflexivity|]. split; [reflexivity|].
  exact (task_db_down_no_tasks w_row_of_task srv_down srv_down srv_down 3 _ [] _ [] _ _
           eq_refl eq_refl eq_refl).
Defined.

Definition w_main := sync_main w_row_of_task true true true srv_down srv_down srv_tasks 3.
Definition w_main_m : M unit := match w_main with Some m => m | None => ret tt end.

Lemma projects_down_rows_without_project_witness :
  load_items srv_down 3 related_process = Some (w_down_out, []) /\
  w_main = Some w_main_m /\
  exists o tasks, Forall (fun t => t_project t = Some (JStr "")) tasks /\
    forall s, w_main_m s = (let* _ := log LInfo START_MSG in
                            let* _ := log_all o in
                            let* _ := sync_pass (map w_row_of_task tasks) in
                            log LInfo FINISH_MSG) s.
Proof.
  assert (H1 : load_items srv_down 3 related_process = Some (w_down_out, [])) by reflexivity.
  assert (H2 : w_main = Some w_main_m) by reflexivity.
  split; [exact H1|]. split; [exact H2|].
  exact (projects_down_rows_without_project w_row_of_task srv_down srv_down srv_tasks 3 _ _ H1 H2).
Defined.

Definition w_ct := convert_task empty_frame empty_frame raw_plain.
Definition w_ct_task : task :=
  match snd w_ct with POk t => t | PErr _ => mkTask JNull JNull None None None None None JNull JNull (JStr "") JNull end.

Lemma missing_event_id_is_none_witness :
  w_ct = (fst w_ct, POk w_ct_task) /\ t_gcal_event_id w_ct_task = JNull.
Proof.
  assert (H : w_ct = (fst w_ct, POk w_ct_task)) by (vm_compute; reflexivity).
  split; [exact H|].
  refine (missing_event_id_is_none _ _ _ _ _ _ H eq_refl _). left. reflexivity.
Defined.
